(** * zhufuyi/logger: a shallow embedding of the logging facade

    The facade of [logger.go] is a thin layer over the Go standard library
    ([strings], [fmt], [encoding/json], [context], [log]) and over
    [go.uber.org/zap].  The facade itself is embedded function by function
    in [Module logger]; the library code it calls is modelled in the modules
    before it, as far as the facade exercises it: the standard library as
    of Go 1.22, zap as of its release 1.27.

    Go strings are byte sequences: they are modelled by [string], whose
    characters are the 256 values of [ascii]. *)

From stdpp Require Import base decidable option numbers list strings gmap pretty.
From Stdlib Require Import ZArith Lia ZifyBool Ascii String.

Local Open Scope Z_scope.

(** ** Bytes *)

Definition byte (c : ascii) : Z := Z.of_N (N_of_ascii c).

(** Conversion [byte(x)] of Go: the low eight bits. *)
Definition chr (z : Z) : ascii := ascii_of_N (Z.to_N (Z.land z 255)).

(** ** Package unicode/utf8 *)

Module utf8.

Definition RuneError : Z := 65533.     (* U+FFFD *)
Definition RuneSelf : Z := 128.
Definition MaxRune : Z := 1114111.     (* U+10FFFF *)
Definition surrogateMin : Z := 55296.  (* U+D800 *)
Definition surrogateMax : Z := 57343.  (* U+DFFF *)

Definition maskx : Z := 63.
Definition mask2 : Z := 31.
Definition mask3 : Z := 15.
Definition mask4 : Z := 7.
Definition tx : Z := 128.
Definition t2 : Z := 192.
Definition t3 : Z := 224.
Definition t4 : Z := 240.
Definition locb : Z := 128.
Definition hicb : Z := 191.

(** The table [first] with [acceptRanges]: for a leading byte, the length
    of the sequence and the range the second byte must lie in; [None] for
    a byte that starts no sequence. *)
Definition first (s0 : Z) : option (nat * (Z * Z)) :=
  if (194 <=? s0) && (s0 <=? 223) then Some (2%nat, (locb, hicb))
  else if s0 =? 224 then Some (3%nat, (160, hicb))
  else if (225 <=? s0) && (s0 <=? 236) then Some (3%nat, (locb, hicb))
  else if s0 =? 237 then Some (3%nat, (locb, 159))
  else if (238 <=? s0) && (s0 <=? 239) then Some (3%nat, (locb, hicb))
  else if s0 =? 240 then Some (4%nat, (144, hicb))
  else if (241 <=? s0) && (s0 <=? 243) then Some (4%nat, (locb, hicb))
  else if s0 =? 244 then Some (4%nat, (locb, 143))
  else None.

Definition cont (b : Z) : bool := (locb <=? b) && (b <=? hicb).

(** [DecodeRuneInString]: the first rune of [s] and its width in bytes;
    an invalid or truncated sequence gives [(RuneError, 1)]. *)
Definition DecodeRuneInString (s : string) : Z * nat :=
  match s with
  | EmptyString => (RuneError, 0%nat)
  | String c0 s1 =>
    let s0 := byte c0 in
    if s0 <? RuneSelf then (s0, 1%nat)
    else match first s0 with
    | None => (RuneError, 1%nat)
    | Some (sz, (lo, hi)) =>
      match s1 with
      | EmptyString => (RuneError, 1%nat)
      | String c1 s2 =>
        let b1 := byte c1 in
        if (b1 <? lo) || (hi <? b1) then (RuneError, 1%nat)
        else if (sz <=? 2)%nat then
          (Z.lor (Z.shiftl (Z.land s0 mask2) 6) (Z.land b1 maskx), 2%nat)
        else match s2 with
        | EmptyString => (RuneError, 1%nat)
        | String c2 s3 =>
          let b2 := byte c2 in
          if negb (cont b2) then (RuneError, 1%nat)
          else if (sz <=? 3)%nat then
            (Z.lor (Z.lor (Z.shiftl (Z.land s0 mask3) 12)
                          (Z.shiftl (Z.land b1 maskx) 6))
                   (Z.land b2 maskx), 3%nat)
          else match s3 with
          | EmptyString => (RuneError, 1%nat)
          | String c3 _ =>
            let b3 := byte c3 in
            if negb (cont b3) then (RuneError, 1%nat)
            else
              (Z.lor (Z.lor (Z.lor (Z.shiftl (Z.land s0 mask4) 18)
                                   (Z.shiftl (Z.land b1 maskx) 12))
                            (Z.shiftl (Z.land b2 maskx) 6))
                     (Z.land b3 maskx), 4%nat)
          end
        end
      end
    end
  end.

Definition encode3 (r : Z) : string :=
  String (chr (Z.lor t3 (Z.shiftr r 12)))
    (String (chr (Z.lor tx (Z.land (Z.shiftr r 6) maskx)))
      (String (chr (Z.lor tx (Z.land r maskx))) EmptyString)).

(** [EncodeRune] / [AppendRune]: the bytes of [r]; a surrogate or a value
    outside the Unicode range is written as [RuneError]. *)
Definition EncodeRune (r : Z) : string :=
  let i := r mod 4294967296 in
  if i <=? 127 then String (chr r) EmptyString
  else if i <=? 2047 then
    String (chr (Z.lor t2 (Z.shiftr r 6)))
      (String (chr (Z.lor tx (Z.land r maskx))) EmptyString)
  else if (MaxRune <? i) || ((surrogateMin <=? i) && (i <=? surrogateMax))
    then encode3 RuneError
  else if i <=? 65535 then encode3 r
  else
    String (chr (Z.lor t4 (Z.shiftr r 18)))
      (String (chr (Z.lor tx (Z.land (Z.shiftr r 12) maskx)))
        (String (chr (Z.lor tx (Z.land (Z.shiftr r 6) maskx)))
          (String (chr (Z.lor tx (Z.land r maskx))) EmptyString))).

End utf8.

(** ** Package unicode *)

Module unicode.

Definition MaxASCII : Z := 127.

(** The case tables of Go ([unicode.CaseRanges]) for a rune above ASCII.
    Two runes above ASCII have an ASCII upper case: U+0131 (dotless i,
    delta -232) and U+017F (long s, delta -300).  Every other rune above
    ASCII has an image above ASCII; the facade compares the result with
    ASCII words only, so for these the table is not spelled out and the
    rune is kept. *)
Definition toUpperTable (r : Z) : Z :=
  if r =? 305 then r - 232
  else if r =? 383 then r - 300
  else r.

Definition ToUpper (r : Z) : Z :=
  if r <=? MaxASCII then
    if (97 <=? r) && (r <=? 122) then r - (97 - 65) else r
  else toUpperTable r.

(** Likewise for lower case: U+0130 (delta -199) and U+212A (Kelvin sign,
    delta -8383) are the runes above ASCII with an ASCII lower case. *)
Definition toLowerTable (r : Z) : Z :=
  if r =? 304 then r - 199
  else if r =? 8490 then r - 8383
  else r.

Definition ToLower (r : Z) : Z :=
  if r <=? MaxASCII then
    if (65 <=? r) && (r <=? 90) then r + (97 - 65) else r
  else toLowerTable r.

End unicode.

(** ** Package strings *)

Module gostrings.

(** [Map]: the loop [for i, c := range s] decodes a rune at every index
    that starts one and skips the bytes the rune covers; a negative image
    is dropped. *)
Fixpoint MapFrom (mapping : Z -> Z) (skip : nat) (s : string) : string :=
  match s with
  | EmptyString => EmptyString
  | String _ rest =>
    match skip with
    | S k => MapFrom mapping k rest
    | O =>
      let '(c, width) := utf8.DecodeRuneInString s in
      let r := mapping c in
      (if 0 <=? r then utf8.EncodeRune r else EmptyString)
        +:+ MapFrom mapping (width - 1) rest
    end
  end.

Definition Map (mapping : Z -> Z) (s : string) : string := MapFrom mapping 0 s.

Fixpoint isASCII (s : string) : bool :=
  match s with
  | EmptyString => true
  | String c rest => (byte c <? utf8.RuneSelf) && isASCII rest
  end.

Definition upperByte (c : ascii) : ascii :=
  if (97 <=? byte c) && (byte c <=? 122) then chr (byte c - (97 - 65)) else c.

Definition lowerByte (c : ascii) : ascii :=
  if (65 <=? byte c) && (byte c <=? 90) then chr (byte c + (97 - 65)) else c.

Fixpoint mapBytes (f : ascii -> ascii) (s : string) : string :=
  match s with
  | EmptyString => EmptyString
  | String c rest => String (f c) (mapBytes f rest)
  end.

(** [ToUpper]: ASCII-only strings are mapped byte by byte, all others
    rune by rune with [unicode.ToUpper]. *)
Definition ToUpper (s : string) : string :=
  if isASCII s then mapBytes upperByte s else Map unicode.ToUpper s.

Definition ToLower (s : string) : string :=
  if isASCII s then mapBytes lowerByte s else Map unicode.ToLower s.

End gostrings.

(** ** Go values of type [interface{}]

    The dynamic values the facade handles: operands of the formatted
    calls, and the keys and values stored in a [context.Context]. *)

Inductive Value :=
  | VNil
  | VString (s : string)
  | VBool (b : bool)
  | VInt (n : Z).

#[global] Instance Value_eq_dec : EqDecision Value.
Proof. solve_decision. Defined.

(** ** Package fmt *)

Module fmt.

Definition typeName (v : Value) : string :=
  match v with
  | VNil => "<nil>"
  | VString _ => "string"
  | VBool _ => "bool"
  | VInt _ => "int"
  end.

(** The operand under [%v]. *)
Definition formatV (v : Value) : string :=
  match v with
  | VNil => "<nil>"
  | VString s => s
  | VBool b => if b then "true" else "false"
  | VInt n => pretty n
  end.

Definition badVerb (verb : ascii) (v : Value) : string :=
  "%!" +:+ String verb "(" +:+
    match v with
    | VNil => "<nil>"
    | _ => typeName v +:+ "=" +:+ formatV v
    end +:+ ")".

(** [printArg] for the plain verbs [%v %s %t %d %T].  Flags, widths,
    argument indexes, verbs that are not ASCII and the further verbs of
    strings and integers ([%q %x %X %b %o %c %U]) are outside this model;
    the facade's own formats use [%s] and [%t] only. *)
Definition printArg (v : Value) (verb : ascii) : string :=
  match verb, v with
  | "T"%char, _ => typeName v
  | "v"%char, _ => formatV v
  | "s"%char, VString s => s
  | "t"%char, VBool _ => formatV v
  | "d"%char, VInt _ => formatV v
  | _, _ => badVerb verb v
  end.

Fixpoint extraArgs (a : list Value) : string :=
  match a with
  | [] => ""
  | v :: rest =>
    match v with
    | VNil => "<nil>"
    | _ => typeName v +:+ "=" +:+ formatV v
    end +:+
    match rest with
    | [] => ""
    | _ => ", " +:+ extraArgs rest
    end
  end.

Definition extra (a : list Value) : string :=
  match a with
  | [] => ""
  | _ => "%!(EXTRA " +:+ extraArgs a +:+ ")"
  end.

(** [doPrintf]: literal text is copied, each verb consumes an operand. *)
Fixpoint Sprintf (format : string) (a : list Value) : string :=
  match format with
  | EmptyString => extra a
  | String c rest =>
    if Ascii.eqb c "%" then
      match rest with
      | EmptyString => "%!(NOVERB)" +:+ extra a
      | String verb rest' =>
        if Ascii.eqb verb "%" then String "%" (Sprintf rest' a)
        else match a with
        | [] => "%!" +:+ String verb "(MISSING)" +:+ Sprintf rest' []
        | v :: a' => printArg v verb +:+ Sprintf rest' a'
        end
      end
    else String c (Sprintf rest a)
  end.

End fmt.

(** ** Errors

    The Go [error] values that can reach the facade. *)

Inductive error :=
  | SyntaxError                              (* encoding/json: malformed text *)
  | UnmarshalTypeError (field : string)      (* encoding/json: wrong kind of value *)
  | UnrecognizedLevel (text : string)        (* zapcore.Level.UnmarshalText *)
  | NoEncoder (name : string)                (* zap: no encoder registered *)
  | OpenSink (path : string)                 (* zap: a sink cannot be opened *)
  | MissingEncodeTime                        (* zap: a time key without encoder *)
  | MissingLevel.                            (* zap: Config.Build without a level *)

(** ** Package encoding/json *)

Module json.

Definition dquote : ascii := "034"%char.
Definition backslash : ascii := "092"%char.

Inductive token :=
  | TLBrace | TRBrace | TLBrack | TRBrack | TColon | TComma
  | TString (raw : string)
  | TNumber (text : string)
  | TTrue | TFalse | TNull.

(** The states of [scanner.go] inside a number. *)
Inductive numState :=
  | NNeg | NZero | NInt | NDot | NFrac | NExp | NExpSign | NExpDigits.

Inductive lexState :=
  | LValue
  | LString (raw : string)
  | LEscape (raw : string)
  | LUnicode (raw : string) (n : nat)
  | LNumber (text : string) (st : numState)
  | LLiteral (tok : token) (expect : string).

Definition isSpace (c : ascii) : bool :=
  (byte c =? 32) || (byte c =? 9) || (byte c =? 13) || (byte c =? 10).

Definition isDigit (c : ascii) : bool := (48 <=? byte c) && (byte c <=? 57).

Definition isHex (c : ascii) : bool :=
  isDigit c || ((97 <=? byte c) && (byte c <=? 102))
            || ((65 <=? byte c) && (byte c <=? 70)).

Definition snoc (s : string) (c : ascii) : string := s +:+ String c EmptyString.

(** A byte where a value, a key or punctuation may start. *)
Definition lexValue (c : ascii) : option (lexState * list token) :=
  if isSpace c then Some (LValue, [])
  else if Ascii.eqb c "{" then Some (LValue, [TLBrace])
  else if Ascii.eqb c "}" then Some (LValue, [TRBrace])
  else if Ascii.eqb c "[" then Some (LValue, [TLBrack])
  else if Ascii.eqb c "]" then Some (LValue, [TRBrack])
  else if Ascii.eqb c ":" then Some (LValue, [TColon])
  else if Ascii.eqb c "," then Some (LValue, [TComma])
  else if Ascii.eqb c dquote then Some (LString EmptyString, [])
  else if Ascii.eqb c "-" then Some (LNumber (String c EmptyString) NNeg, [])
  else if Ascii.eqb c "0" then Some (LNumber (String c EmptyString) NZero, [])
  else if isDigit c then Some (LNumber (String c EmptyString) NInt, [])
  else if Ascii.eqb c "t" then Some (LLiteral TTrue "rue", [])
  else if Ascii.eqb c "f" then Some (LLiteral TFalse "alse", [])
  else if Ascii.eqb c "n" then Some (LLiteral TNull "ull", [])
  else None.

(** The next state of a number on [c]; [None] when [c] does not continue
    the number. *)
Definition numNext (st : numState) (c : ascii) : option numState :=
  let isE := Ascii.eqb c "e" || Ascii.eqb c "E" in
  match st with
  | NNeg => if Ascii.eqb c "0" then Some NZero
            else if isDigit c then Some NInt else None
  | NZero => if Ascii.eqb c "." then Some NDot
             else if isE then Some NExp else None
  | NInt => if isDigit c then Some NInt
            else if Ascii.eqb c "." then Some NDot
            else if isE then Some NExp else None
  | NDot => if isDigit c then Some NFrac else None
  | NFrac => if isDigit c then Some NFrac
             else if isE then Some NExp else None
  | NExp => if Ascii.eqb c "+" || Ascii.eqb c "-" then Some NExpSign
            else if isDigit c then Some NExpDigits else None
  | NExpSign => if isDigit c then Some NExpDigits else None
  | NExpDigits => if isDigit c then Some NExpDigits else None
  end.

Definition numDone (st : numState) : bool :=
  match st with
  | NZero | NInt | NFrac | NExpDigits => true
  | _ => false
  end.

Definition lexStep (st : lexState) (c : ascii) : option (lexState * list token) :=
  match st with
  | LValue => lexValue c
  | LString raw =>
    if Ascii.eqb c dquote then Some (LValue, [TString raw])
    else if Ascii.eqb c backslash then Some (LEscape (snoc raw c), [])
    else if byte c <? 32 then None
    else Some (LString (snoc raw c), [])
  | LEscape raw =>
    if Ascii.eqb c "b" || Ascii.eqb c "f" || Ascii.eqb c "n" || Ascii.eqb c "r"
       || Ascii.eqb c "t" || Ascii.eqb c backslash || Ascii.eqb c "/"
       || Ascii.eqb c dquote
    then Some (LString (snoc raw c), [])
    else if Ascii.eqb c "u" then Some (LUnicode (snoc raw c) 4, [])
    else None
  | LUnicode raw n =>
    if isHex c then
      match n with
      | S (S k) => Some (LUnicode (snoc raw c) (S k), [])
      | _ => Some (LString (snoc raw c), [])
      end
    else None
  | LNumber text ns =>
    match numNext ns c with
    | Some ns' => Some (LNumber (snoc text c) ns', [])
    | None =>
      if numDone ns then
        match lexValue c with
        | Some (st', out) => Some (st', TNumber text :: out)
        | None => None
        end
      else None
    end
  | LLiteral tok expect =>
    match expect with
    | EmptyString => None
    | String e rest =>
      if Ascii.eqb c e then
        match rest with
        | EmptyString => Some (LValue, [tok])
        | _ => Some (LLiteral tok rest, [])
        end
      else None
    end
  end.

Definition lexEnd (st : lexState) : option (list token) :=
  match st with
  | LValue => Some []
  | LNumber text ns => if numDone ns then Some [TNumber text] else None
  | _ => None
  end.

Fixpoint lexFrom (st : lexState) (s : string) : option (list token) :=
  match s with
  | EmptyString => lexEnd st
  | String c rest =>
    match lexStep st c with
    | None => None
    | Some (st', out) =>
      match lexFrom st' rest with
      | None => None
      | Some toks => Some (out ++ toks)
      end
    end
  end.

Definition lex (s : string) : option (list token) := lexFrom LValue s.

(** The scanner after a prefix of the text: its state and the tokens so far. *)
Fixpoint lexRun (st : lexState) (s : string) : option (lexState * list token) :=
  match s with
  | EmptyString => Some (st, [])
  | String c rest =>
    match lexStep st c with
    | None => None
    | Some (st', out) =>
      match lexRun st' rest with
      | None => None
      | Some (st'', toks) => Some (st'', out ++ toks)
      end
    end
  end.

(** *** String literals ([unquote] of decode.go) *)

Fixpoint skipBytes (n : nat) (s : string) : string :=
  match n, s with
  | S k, String _ rest => skipBytes k rest
  | _, _ => s
  end.

Definition hexVal (c : ascii) : option Z :=
  if isDigit c then Some (byte c - 48)
  else if (97 <=? byte c) && (byte c <=? 102) then Some (byte c - 97 + 10)
  else if (65 <=? byte c) && (byte c <=? 70) then Some (byte c - 65 + 10)
  else None.

(** [getu4]: the code unit of a leading [\uXXXX], or -1. *)
Definition getu4 (s : string) : Z :=
  match s with
  | String b (String u (String h1 (String h2 (String h3 (String h4 _))))) =>
    if Ascii.eqb b backslash && Ascii.eqb u "u" then
      match hexVal h1, hexVal h2, hexVal h3, hexVal h4 with
      | Some d1, Some d2, Some d3, Some d4 =>
        ((d1 * 16 + d2) * 16 + d3) * 16 + d4
      | _, _, _, _ => -1
      end
    else -1
  | _ => -1
  end.

(** Package unicode/utf16. *)
Definition surr1 : Z := 55296.
Definition surr2 : Z := 56320.
Definition surr3 : Z := 57344.
Definition surrSelf : Z := 65536.

Definition IsSurrogate (r : Z) : bool := (surr1 <=? r) && (r <? surr3).

Definition utf16DecodeRune (r1 r2 : Z) : Z :=
  if (surr1 <=? r1) && (r1 <? surr2) && (surr2 <=? r2) && (r2 <? surr3)
  then Z.lor (Z.shiftl (r1 - surr1) 10) (r2 - surr2) + surrSelf
  else utf8.RuneError.

Definition escaped (e : ascii) : ascii :=
  if Ascii.eqb e "b" then "008"%char
  else if Ascii.eqb e "f" then "012"%char
  else if Ascii.eqb e "n" then "010"%char
  else if Ascii.eqb e "r" then "013"%char
  else if Ascii.eqb e "t" then "009"%char
  else e.

(** The text of a literal the scanner has accepted: escapes are replaced,
    and bytes that are not UTF-8 become U+FFFD.  [skip] counts the bytes
    already consumed by the previous step. *)
Fixpoint unquoteFrom (skip : nat) (s : string) : string :=
  match s with
  | EmptyString => EmptyString
  | String c rest =>
    match skip with
    | S k => unquoteFrom k rest
    | O =>
      if Ascii.eqb c backslash then
        match rest with
        | EmptyString => EmptyString
        | String e _ =>
          if Ascii.eqb e "u" then
            let rr := getu4 s in
            if IsSurrogate rr then
              let dec := utf16DecodeRune rr (getu4 (skipBytes 6 s)) in
              if negb (dec =? utf8.RuneError)
              then utf8.EncodeRune dec +:+ unquoteFrom 11 rest
              else utf8.EncodeRune utf8.RuneError +:+ unquoteFrom 5 rest
            else utf8.EncodeRune rr +:+ unquoteFrom 5 rest
          else String (escaped e) (unquoteFrom 1 rest)
        end
      else if byte c <? utf8.RuneSelf then String c (unquoteFrom 0 rest)
      else
        let '(rr, size) := utf8.DecodeRuneInString s in
        utf8.EncodeRune rr +:+ unquoteFrom (size - 1) rest
    end
  end.

Definition unquote (raw : string) : string := unquoteFrom 0 raw.

(** *** Values *)

#[warnings="-register-all"] Inductive value :=
  | JNull
  | JBool (b : bool)
  | JNumber (text : string)
  | JString (s : string)
  | JArray (elems : list value)
  | JObject (members : list (string * value)).

(** The parse stack of the scanner, carrying what has been read of each
    open array or object (latest first). *)
Inductive frame :=
  | FArray (elems : list value)
  | FObject (members : list (string * value)) (key : option string).

Inductive mode :=
  | BeginValue            (* a value must start *)
  | BeginValueOrEmpty     (* after '[' *)
  | BeginStringOrEmpty    (* after '{' *)
  | BeginString           (* after ',' in an object *)
  | ObjectKey             (* after a key: ':' *)
  | EndValue              (* after a value: ',' or the closing bracket *)
  | EndTop (v : value).   (* the top-level value is complete *)

(** A complete value goes to the innermost open array or object. *)
Definition endValue (stack : list frame) (v : value) : option (list frame * mode) :=
  match stack with
  | [] => Some ([], EndTop v)
  | FArray es :: st => Some (FArray (v :: es) :: st, EndValue)
  | FObject ms (Some k) :: st => Some (FObject ((k, v) :: ms) None :: st, EndValue)
  | FObject _ None :: _ => None
  end.

Definition beginValue (stack : list frame) (tok : token) : option (list frame * mode) :=
  match tok with
  | TString raw => endValue stack (JString (unquote raw))
  | TNumber text => endValue stack (JNumber text)
  | TTrue => endValue stack (JBool true)
  | TFalse => endValue stack (JBool false)
  | TNull => endValue stack JNull
  | TLBrack => Some (FArray [] :: stack, BeginValueOrEmpty)
  | TLBrace => Some (FObject [] None :: stack, BeginStringOrEmpty)
  | _ => None
  end.

Definition beginString (stack : list frame) (tok : token) : option (list frame * mode) :=
  match tok, stack with
  | TString raw, FObject ms None :: st =>
    Some (FObject ms (Some (unquote raw)) :: st, ObjectKey)
  | _, _ => None
  end.

Definition parseStep (stack : list frame) (m : mode) (tok : token)
  : option (list frame * mode) :=
  match m with
  | BeginValue => beginValue stack tok
  | BeginValueOrEmpty =>
    match tok, stack with
    | TRBrack, FArray es :: st => endValue st (JArray (rev es))
    | _, _ => beginValue stack tok
    end
  | BeginStringOrEmpty =>
    match tok, stack with
    | TRBrace, FObject ms None :: st => endValue st (JObject (rev ms))
    | _, _ => beginString stack tok
    end
  | BeginString => beginString stack tok
  | ObjectKey =>
    match tok with
    | TColon => Some (stack, BeginValue)
    | _ => None
    end
  | EndValue =>
    match tok, stack with
    | TComma, FArray _ :: _ => Some (stack, BeginValue)
    | TRBrack, FArray es :: st => endValue st (JArray (rev es))
    | TComma, FObject _ None :: _ => Some (stack, BeginString)
    | TRBrace, FObject ms None :: st => endValue st (JObject (rev ms))
    | _, _ => None
    end
  | EndTop _ => None
  end.

Fixpoint parseFrom (stack : list frame) (m : mode) (toks : list token)
  : option value :=
  match toks with
  | [] => match m with EndTop v => Some v | _ => None end
  | tok :: rest =>
    match parseStep stack m tok with
    | None => None
    | Some (stack', m') => parseFrom stack' m' rest
    end
  end.

(** The JSON value of a text; [None] is a syntax error ([checkValid]). *)
Definition parse (data : string) : option value :=
  match lex data with
  | None => None
  | Some toks => parseFrom [] BeginValue toks
  end.

(** *** Numbers (package strconv)

    The scanner has accepted the text of a number; what remains is its
    value. *)

(** The text read as [(-1)^dNeg * dMant * 10^dExp]. *)
Record decimal := { dNeg : bool; dMant : Z; dExp : Z }.

Inductive numPart := PInt | PFrac | PExp.

Fixpoint readDecimal (s : string) (part : numPart) (ng : bool) (m frac : Z)
  (eneg : bool) (e : Z) : decimal :=
  match s with
  | EmptyString =>
    {| dNeg := ng; dMant := m; dExp := (if eneg then - e else e) - frac |}
  | String c rest =>
    if isDigit c then
      let d := byte c - 48 in
      match part with
      | PInt => readDecimal rest PInt ng (m * 10 + d) frac eneg e
      | PFrac => readDecimal rest PFrac ng (m * 10 + d) (frac + 1) eneg e
      | PExp => readDecimal rest PExp ng m frac eneg (e * 10 + d)
      end
    else if Ascii.eqb c "." then readDecimal rest PFrac ng m frac eneg e
    else if Ascii.eqb c "e" || Ascii.eqb c "E" then readDecimal rest PExp ng m frac eneg e
    else if Ascii.eqb c "-" then
      match part with
      | PExp => readDecimal rest PExp ng m frac true e
      | _ => readDecimal rest part true m frac eneg e
      end
    else readDecimal rest part ng m frac eneg e
  end.

Definition decimalOf (text : string) : decimal :=
  readDecimal text PInt false 0 0 false 0.

Fixpoint isInteger (text : string) : bool :=
  match text with
  | EmptyString => true
  | String c rest => (isDigit c || Ascii.eqb c "-") && isInteger rest
  end.

(** [strconv.ParseInt(text, 10, 64)]: [None] is its error, for a text with
    a fraction or an exponent and for a value outside [int64]. *)
Definition ParseInt (text : string) : option Z :=
  if isInteger text then
    let d := decimalOf text in
    let n := if dNeg d then - dMant d else dMant d in
    if (- 2 ^ 63 <=? n) && (n <? 2 ^ 63) then Some n else None
  else None.

Definition roundHalfEven (n d : Z) : Z :=
  let q := n / d in
  let r := n mod d in
  if (d <? 2 * r) || ((d =? 2 * r) && Z.odd q) then q + 1 else q.

(** The [float64] nearest to [n / d], for [n] and [d] positive, as the
    bits of IEEE 754 binary64; a value that rounds beyond the largest
    finite number gives the bits of infinity or more. *)
Definition bitsOfRatio (n d : Z) : Z :=
  let k := Z.log2 n - Z.log2 d in
  let e2 :=
    if (if 0 <=? k then d * 2 ^ k <=? n else d <=? n * 2 ^ (- k)) then k else k - 1 in
  let s := Z.max (e2 - 52) (-1074) in
  let q :=
    if 0 <=? s then roundHalfEven n (d * 2 ^ s) else roundHalfEven (n * 2 ^ (- s)) d in
  (s + 1074) * 2 ^ 52 + q.

Definition infBits : Z := 2047 * 2 ^ 52.

(** [strconv.ParseFloat(text, 64)], the result given by
    [math.Float64bits]; [None] is the range error. *)
Definition ParseFloat (text : string) : option Z :=
  let d := decimalOf text in
  let magnitude :=
    if dMant d =? 0 then 0
    else if 0 <=? dExp d then bitsOfRatio (dMant d * 10 ^ dExp d) 1
    else bitsOfRatio (dMant d) (10 ^ (- dExp d)) in
  if infBits <=? magnitude then None
  else Some (magnitude + (if dNeg d then 2 ^ 63 else 0)).

(** The first number in [v], in the order of the text, that is no
    [float64]. *)
Fixpoint badNumber (v : value) : option string :=
  match v with
  | JNumber text => match ParseFloat text with Some _ => None | None => Some text end
  | JArray elems =>
    (fix first (vs : list value) : option string :=
       match vs with
       | [] => None
       | e :: rest => match badNumber e with Some t => Some t | None => first rest end
       end) elems
  | JObject members =>
    (fix first (ms : list (string * value)) : option string :=
       match ms with
       | [] => None
       | (_, e) :: rest => match badNumber e with Some t => Some t | None => first rest end
       end) members
  | _ => None
  end.

(** *** Names of struct fields ([foldName] of encode.go)

    A key names a field when the two are equal after folding.  Of the runes
    above ASCII two fold to an ASCII letter: U+017F (long s) to S and
    U+212A (Kelvin sign) to K.  Every other rune above ASCII folds to a
    rune above ASCII; the names of the fields are ASCII, so for these the
    fold table is not spelled out and the rune is kept. *)
Definition foldRune (r : Z) : Z :=
  if r =? 383 then 83
  else if r =? 8490 then 75
  else r.

Fixpoint foldFrom (skip : nat) (s : string) : string :=
  match s with
  | EmptyString => EmptyString
  | String c rest =>
    match skip with
    | S k => foldFrom k rest
    | O =>
      if byte c <? utf8.RuneSelf then String (gostrings.upperByte c) (foldFrom 0 rest)
      else
        let '(r, size) := utf8.DecodeRuneInString s in
        utf8.EncodeRune (foldRune r) +:+ foldFrom (size - 1) rest
    end
  end.

Definition foldName (name : string) : string := foldFrom 0 name.

End json.

Definition dq : string := String json.dquote EmptyString.

(** What a parameter of type [interface{}] can hold here: a value as
    above; the [map[string]interface{}] of such values that [Ctx] builds;
    and what [json.Unmarshal] stores in an [interface{}] besides nil, a
    bool or a string: a [float64], kept by its bits, and the
    [[]interface{}] or [map[string]interface{}] of an array or an object,
    kept as the JSON value it was decoded from (a later member of an object
    replaces an earlier one with the same key). *)
Inductive Iface :=
  | IValue (v : Value)
  | IMap (m : gmap string Value)
  | IFloat64 (bits : Z)
  | IJson (v : json.value).

(** ** Package go.uber.org/zap/zapcore *)

Module zapcore.

Inductive Level :=
  | DebugLevel | InfoLevel | WarnLevel | ErrorLevel
  | DPanicLevel | PanicLevel | FatalLevel.

#[global] Instance Level_eq_dec : EqDecision Level.
Proof. solve_decision. Defined.

Definition levelNum (l : Level) : Z :=
  match l with
  | DebugLevel => -1
  | InfoLevel => 0
  | WarnLevel => 1
  | ErrorLevel => 2
  | DPanicLevel => 3
  | PanicLevel => 4
  | FatalLevel => 5
  end.

(** [Level.Enabled]: a core at level [l] writes an entry of level [lvl]. *)
Definition Enabled (l lvl : Level) : bool := levelNum l <=? levelNum lvl.

Definition unmarshalText (text : string) : option Level :=
  if String.eqb text "debug" || String.eqb text "DEBUG" then Some DebugLevel
  else if String.eqb text "info" || String.eqb text "INFO" || String.eqb text ""
    then Some InfoLevel
  else if String.eqb text "warn" || String.eqb text "WARN" then Some WarnLevel
  else if String.eqb text "error" || String.eqb text "ERROR" then Some ErrorLevel
  else if String.eqb text "dpanic" || String.eqb text "DPANIC" then Some DPanicLevel
  else if String.eqb text "panic" || String.eqb text "PANIC" then Some PanicLevel
  else if String.eqb text "fatal" || String.eqb text "FATAL" then Some FatalLevel
  else None.

(** [Level.UnmarshalText]: the text as it is, then in lower case. *)
Definition UnmarshalText (text : string) : Level + error :=
  match unmarshalText text with
  | Some l => inl l
  | None =>
    match unmarshalText (gostrings.ToLower text) with
    | Some l => inl l
    | None => inr (UnrecognizedLevel text)
    end
  end.

Inductive FieldType :=
  | BoolType | Float64Type | Int64Type | StringType | ReflectType.

Record Field := {
  Key : string;
  Kind : FieldType;
  Integer : Z;
  Str : string;
  Interface : Iface
}.

(** *** Encoders and their [UnmarshalText] *)

Inductive LevelEncoder :=
  | LowercaseLevelEncoder | LowercaseColorLevelEncoder
  | CapitalLevelEncoder | CapitalColorLevelEncoder.

Inductive TimeEncoder :=
  | EpochTimeEncoder
  | EpochMillisTimeEncoder
  | EpochNanosTimeEncoder
  | ISO8601TimeEncoder
  | RFC3339TimeEncoder
  | RFC3339NanoTimeEncoder
  | LayoutTimeEncoder (layout : string).

Inductive DurationEncoder :=
  | SecondsDurationEncoder | NanosDurationEncoder
  | MillisDurationEncoder | StringDurationEncoder.

Inductive CallerEncoder := ShortCallerEncoder | FullCallerEncoder.

Inductive NameEncoder := FullNameEncoder.

Definition unmarshalLevelEncoder (text : string) : LevelEncoder :=
  if String.eqb text "capital" then CapitalLevelEncoder
  else if String.eqb text "capitalColor" then CapitalColorLevelEncoder
  else if String.eqb text "color" then LowercaseColorLevelEncoder
  else LowercaseLevelEncoder.

Definition unmarshalTimeEncoder (text : string) : TimeEncoder :=
  if String.eqb text "rfc3339nano" || String.eqb text "RFC3339Nano"
    then RFC3339NanoTimeEncoder
  else if String.eqb text "rfc3339" || String.eqb text "RFC3339" then RFC3339TimeEncoder
  else if String.eqb text "iso8601" || String.eqb text "ISO8601" then ISO8601TimeEncoder
  else if String.eqb text "millis" then EpochMillisTimeEncoder
  else if String.eqb text "nanos" then EpochNanosTimeEncoder
  else EpochTimeEncoder.

Definition unmarshalDurationEncoder (text : string) : DurationEncoder :=
  if String.eqb text "string" then StringDurationEncoder
  else if String.eqb text "nanos" then NanosDurationEncoder
  else if String.eqb text "ms" then MillisDurationEncoder
  else SecondsDurationEncoder.

Definition unmarshalCallerEncoder (text : string) : CallerEncoder :=
  if String.eqb text "full" then FullCallerEncoder else ShortCallerEncoder.

Definition unmarshalNameEncoder (text : string) : NameEncoder := FullNameEncoder.

(** [EncoderConfig], without [NewReflectedEncoder], which JSON does not
    reach.  An encoder that is [None] is the nil function. *)
Record EncoderConfig := {
  MessageKey : string;
  LevelKey : string;
  TimeKey : string;
  NameKey : string;
  CallerKey : string;
  FunctionKey : string;
  StacktraceKey : string;
  SkipLineEnding : bool;
  LineEnding : string;
  EncodeLevel : option LevelEncoder;
  EncodeTime : option TimeEncoder;
  EncodeDuration : option DurationEncoder;
  EncodeCaller : option CallerEncoder;
  EncodeName : option NameEncoder;
  ConsoleSeparator : string
}.

Definition zeroEncoderConfig : EncoderConfig :=
  {| MessageKey := ""; LevelKey := ""; TimeKey := ""; NameKey := "";
     CallerKey := ""; FunctionKey := ""; StacktraceKey := "";
     SkipLineEnding := false; LineEnding := "";
     EncodeLevel := None; EncodeTime := None; EncodeDuration := None;
     EncodeCaller := None; EncodeName := None; ConsoleSeparator := "" |}.

Definition setMessageKey (x : string) (c : EncoderConfig) : EncoderConfig :=
  {| MessageKey := x; LevelKey := LevelKey c; TimeKey := TimeKey c;
     NameKey := NameKey c; CallerKey := CallerKey c; FunctionKey := FunctionKey c;
     StacktraceKey := StacktraceKey c; SkipLineEnding := SkipLineEnding c;
     LineEnding := LineEnding c; EncodeLevel := EncodeLevel c;
     EncodeTime := EncodeTime c; EncodeDuration := EncodeDuration c;
     EncodeCaller := EncodeCaller c; EncodeName := EncodeName c;
     ConsoleSeparator := ConsoleSeparator c |}.

Definition setLevelKey (x : string) (c : EncoderConfig) : EncoderConfig :=
  {| MessageKey := MessageKey c; LevelKey := x; TimeKey := TimeKey c;
     NameKey := NameKey c; CallerKey := CallerKey c; FunctionKey := FunctionKey c;
     StacktraceKey := StacktraceKey c; SkipLineEnding := SkipLineEnding c;
     LineEnding := LineEnding c; EncodeLevel := EncodeLevel c;
     EncodeTime := EncodeTime c; EncodeDuration := EncodeDuration c;
     EncodeCaller := EncodeCaller c; EncodeName := EncodeName c;
     ConsoleSeparator := ConsoleSeparator c |}.

Definition setTimeKey (x : string) (c : EncoderConfig) : EncoderConfig :=
  {| MessageKey := MessageKey c; LevelKey := LevelKey c; TimeKey := x;
     NameKey := NameKey c; CallerKey := CallerKey c; FunctionKey := FunctionKey c;
     StacktraceKey := StacktraceKey c; SkipLineEnding := SkipLineEnding c;
     LineEnding := LineEnding c; EncodeLevel := EncodeLevel c;
     EncodeTime := EncodeTime c; EncodeDuration := EncodeDuration c;
     EncodeCaller := EncodeCaller c; EncodeName := EncodeName c;
     ConsoleSeparator := ConsoleSeparator c |}.

Definition setNameKey (x : string) (c : EncoderConfig) : EncoderConfig :=
  {| MessageKey := MessageKey c; LevelKey := LevelKey c; TimeKey := TimeKey c;
     NameKey := x; CallerKey := CallerKey c; FunctionKey := FunctionKey c;
     StacktraceKey := StacktraceKey c; SkipLineEnding := SkipLineEnding c;
     LineEnding := LineEnding c; EncodeLevel := EncodeLevel c;
     EncodeTime := EncodeTime c; EncodeDuration := EncodeDuration c;
     EncodeCaller := EncodeCaller c; EncodeName := EncodeName c;
     ConsoleSeparator := ConsoleSeparator c |}.

Definition setCallerKey (x : string) (c : EncoderConfig) : EncoderConfig :=
  {| MessageKey := MessageKey c; LevelKey := LevelKey c; TimeKey := TimeKey c;
     NameKey := NameKey c; CallerKey := x; FunctionKey := FunctionKey c;
     StacktraceKey := StacktraceKey c; SkipLineEnding := SkipLineEnding c;
     LineEnding := LineEnding c; EncodeLevel := EncodeLevel c;
     EncodeTime := EncodeTime c; EncodeDuration := EncodeDuration c;
     EncodeCaller := EncodeCaller c; EncodeName := EncodeName c;
     ConsoleSeparator := ConsoleSeparator c |}.

Definition setFunctionKey (x : string) (c : EncoderConfig) : EncoderConfig :=
  {| MessageKey := MessageKey c; LevelKey := LevelKey c; TimeKey := TimeKey c;
     NameKey := NameKey c; CallerKey := CallerKey c; FunctionKey := x;
     StacktraceKey := StacktraceKey c; SkipLineEnding := SkipLineEnding c;
     LineEnding := LineEnding c; EncodeLevel := EncodeLevel c;
     EncodeTime := EncodeTime c; EncodeDuration := EncodeDuration c;
     EncodeCaller := EncodeCaller c; EncodeName := EncodeName c;
     ConsoleSeparator := ConsoleSeparator c |}.

Definition setStacktraceKey (x : string) (c : EncoderConfig) : EncoderConfig :=
  {| MessageKey := MessageKey c; LevelKey := LevelKey c; TimeKey := TimeKey c;
     NameKey := NameKey c; CallerKey := CallerKey c; FunctionKey := FunctionKey c;
     StacktraceKey := x; SkipLineEnding := SkipLineEnding c;
     LineEnding := LineEnding c; EncodeLevel := EncodeLevel c;
     EncodeTime := EncodeTime c; EncodeDuration := EncodeDuration c;
     EncodeCaller := EncodeCaller c; EncodeName := EncodeName c;
     ConsoleSeparator := ConsoleSeparator c |}.

Definition setSkipLineEnding (x : bool) (c : EncoderConfig) : EncoderConfig :=
  {| MessageKey := MessageKey c; LevelKey := LevelKey c; TimeKey := TimeKey c;
     NameKey := NameKey c; CallerKey := CallerKey c; FunctionKey := FunctionKey c;
     StacktraceKey := StacktraceKey c; SkipLineEnding := x; LineEnding := LineEnding c;
     EncodeLevel := EncodeLevel c; EncodeTime := EncodeTime c;
     EncodeDuration := EncodeDuration c; EncodeCaller := EncodeCaller c;
     EncodeName := EncodeName c; ConsoleSeparator := ConsoleSeparator c |}.

Definition setLineEnding (x : string) (c : EncoderConfig) : EncoderConfig :=
  {| MessageKey := MessageKey c; LevelKey := LevelKey c; TimeKey := TimeKey c;
     NameKey := NameKey c; CallerKey := CallerKey c; FunctionKey := FunctionKey c;
     StacktraceKey := StacktraceKey c; SkipLineEnding := SkipLineEnding c;
     LineEnding := x; EncodeLevel := EncodeLevel c; EncodeTime := EncodeTime c;
     EncodeDuration := EncodeDuration c; EncodeCaller := EncodeCaller c;
     EncodeName := EncodeName c; ConsoleSeparator := ConsoleSeparator c |}.

Definition setEncodeLevel (x : option LevelEncoder) (c : EncoderConfig) : EncoderConfig :=
  {| MessageKey := MessageKey c; LevelKey := LevelKey c; TimeKey := TimeKey c;
     NameKey := NameKey c; CallerKey := CallerKey c; FunctionKey := FunctionKey c;
     StacktraceKey := StacktraceKey c; SkipLineEnding := SkipLineEnding c;
     LineEnding := LineEnding c; EncodeLevel := x; EncodeTime := EncodeTime c;
     EncodeDuration := EncodeDuration c; EncodeCaller := EncodeCaller c;
     EncodeName := EncodeName c; ConsoleSeparator := ConsoleSeparator c |}.

Definition setEncodeTime (x : option TimeEncoder) (c : EncoderConfig) : EncoderConfig :=
  {| MessageKey := MessageKey c; LevelKey := LevelKey c; TimeKey := TimeKey c;
     NameKey := NameKey c; CallerKey := CallerKey c; FunctionKey := FunctionKey c;
     StacktraceKey := StacktraceKey c; SkipLineEnding := SkipLineEnding c;
     LineEnding := LineEnding c; EncodeLevel := EncodeLevel c; EncodeTime := x;
     EncodeDuration := EncodeDuration c; EncodeCaller := EncodeCaller c;
     EncodeName := EncodeName c; ConsoleSeparator := ConsoleSeparator c |}.

Definition setEncodeDuration (x : option DurationEncoder) (c : EncoderConfig) : EncoderConfig :=
  {| MessageKey := MessageKey c; LevelKey := LevelKey c; TimeKey := TimeKey c;
     NameKey := NameKey c; CallerKey := CallerKey c; FunctionKey := FunctionKey c;
     StacktraceKey := StacktraceKey c; SkipLineEnding := SkipLineEnding c;
     LineEnding := LineEnding c; EncodeLevel := EncodeLevel c;
     EncodeTime := EncodeTime c; EncodeDuration := x; EncodeCaller := EncodeCaller c;
     EncodeName := EncodeName c; ConsoleSeparator := ConsoleSeparator c |}.

Definition setEncodeCaller (x : option CallerEncoder) (c : EncoderConfig) : EncoderConfig :=
  {| MessageKey := MessageKey c; LevelKey := LevelKey c; TimeKey := TimeKey c;
     NameKey := NameKey c; CallerKey := CallerKey c; FunctionKey := FunctionKey c;
     StacktraceKey := StacktraceKey c; SkipLineEnding := SkipLineEnding c;
     LineEnding := LineEnding c; EncodeLevel := EncodeLevel c;
     EncodeTime := EncodeTime c; EncodeDuration := EncodeDuration c; EncodeCaller := x;
     EncodeName := EncodeName c; ConsoleSeparator := ConsoleSeparator c |}.

Definition setEncodeName (x : option NameEncoder) (c : EncoderConfig) : EncoderConfig :=
  {| MessageKey := MessageKey c; LevelKey := LevelKey c; TimeKey := TimeKey c;
     NameKey := NameKey c; CallerKey := CallerKey c; FunctionKey := FunctionKey c;
     StacktraceKey := StacktraceKey c; SkipLineEnding := SkipLineEnding c;
     LineEnding := LineEnding c; EncodeLevel := EncodeLevel c;
     EncodeTime := EncodeTime c; EncodeDuration := EncodeDuration c;
     EncodeCaller := EncodeCaller c; EncodeName := x;
     ConsoleSeparator := ConsoleSeparator c |}.

Definition setConsoleSeparator (x : string) (c : EncoderConfig) : EncoderConfig :=
  {| MessageKey := MessageKey c; LevelKey := LevelKey c; TimeKey := TimeKey c;
     NameKey := NameKey c; CallerKey := CallerKey c; FunctionKey := FunctionKey c;
     StacktraceKey := StacktraceKey c; SkipLineEnding := SkipLineEnding c;
     LineEnding := LineEnding c; EncodeLevel := EncodeLevel c;
     EncodeTime := EncodeTime c; EncodeDuration := EncodeDuration c;
     EncodeCaller := EncodeCaller c; EncodeName := EncodeName c;
     ConsoleSeparator := x |}.

(** *** The sampler

    A sampler counts the entries of a level whose messages have the same
    hash, within a tick of the clock.  The counters belong to the sampler
    that [NewSamplerWithOptions] makes and are shared by the cores that
    [With] derives from it.  Calls are taken one at a time. *)

Definition wrapInt64 (x : Z) : Z := (x + 2 ^ 63) mod 2 ^ 64 - 2 ^ 63.
Definition wrapUint64 (x : Z) : Z := x mod 2 ^ 64.

Fixpoint fnvFrom (hash : Z) (s : string) : Z :=
  match s with
  | EmptyString => hash
  | String c rest => fnvFrom ((Z.lxor hash (byte c) * 16777619) mod 2 ^ 32) rest
  end.

Definition fnv32a (s : string) : Z := fnvFrom 2166136261 s.

Definition countersPerLevel : Z := 4096.

(** A counter is its [resetAt] and [counter], a pair; the array
    [counters] is a map from level and hash to counters, in which a
    counter that was never touched is absent. *)

Definition counterKey (lvl : Level) (key : string) : Z * Z :=
  (levelNum lvl - levelNum DebugLevel, fnv32a key mod countersPerLevel).

(** [counter.IncCheckReset], at the time [tn] in nanoseconds. *)
Definition IncCheckReset (c : Z * Z) (tn tick : Z) : Z * (Z * Z) :=
  let '(resetAt, n) := c in
  if tn <? resetAt then (wrapUint64 (n + 1), (resetAt, wrapUint64 (n + 1)))
  else (1, (wrapInt64 (tn + tick), 1)).

(** The tick [Config.Build] gives its sampler: [time.Second]. *)
Definition tick : Z := 1000000000.

(** The decision of [sampler.Check] for an entry whose level is enabled:
    whether the entry goes on to the core, and the counters afterwards. *)
Definition sample (first thereafter : Z) (tn : Z) (lvl : Level) (msg : string)
  (cs : gmap (Z * Z) (Z * Z)) : bool * gmap (Z * Z) (Z * Z) :=
  let key := counterKey lvl msg in
  let '(n, c) := IncCheckReset (default (0, 0) (cs !! key)) tn tick in
  (negb ((first <? n) && ((thereafter =? 0) || negb ((n - first) mod thereafter =? 0))),
   <[key := c]> cs).

End zapcore.

(** ** Package go.uber.org/zap *)

Module zap.

Import zapcore.

Record SamplingConfig := {
  Initial : Z;
  Thereafter : Z
}.

(** [zap.Config].  [Level = None] is the zero [AtomicLevel],
    [Sampling = None] the nil pointer, [InitialFields = None] the nil map. *)
Record Config := {
  Level : option zapcore.Level;
  Development : bool;
  DisableCaller : bool;
  DisableStacktrace : bool;
  Sampling : option SamplingConfig;
  Encoding : string;
  EncoderConfig : zapcore.EncoderConfig;
  OutputPaths : list string;
  ErrorOutputPaths : list string;
  InitialFields : option (gmap string Iface)
}.

Definition zeroConfig : Config :=
  {| Level := None; Development := false; DisableCaller := false;
     DisableStacktrace := false; Sampling := None; Encoding := "";
     EncoderConfig := zeroEncoderConfig; OutputPaths := [];
     ErrorOutputPaths := []; InitialFields := None |}.

Definition setLevel (x : option zapcore.Level) (c : Config) : Config :=
  {| Level := x; Development := Development c; DisableCaller := DisableCaller c;
     DisableStacktrace := DisableStacktrace c; Sampling := Sampling c;
     Encoding := Encoding c; EncoderConfig := EncoderConfig c;
     OutputPaths := OutputPaths c; ErrorOutputPaths := ErrorOutputPaths c;
     InitialFields := InitialFields c |}.

Definition setDevelopment (x : bool) (c : Config) : Config :=
  {| Level := Level c; Development := x; DisableCaller := DisableCaller c;
     DisableStacktrace := DisableStacktrace c; Sampling := Sampling c;
     Encoding := Encoding c; EncoderConfig := EncoderConfig c;
     OutputPaths := OutputPaths c; ErrorOutputPaths := ErrorOutputPaths c;
     InitialFields := InitialFields c |}.

Definition setDisableCaller (x : bool) (c : Config) : Config :=
  {| Level := Level c; Development := Development c; DisableCaller := x;
     DisableStacktrace := DisableStacktrace c; Sampling := Sampling c;
     Encoding := Encoding c; EncoderConfig := EncoderConfig c;
     OutputPaths := OutputPaths c; ErrorOutputPaths := ErrorOutputPaths c;
     InitialFields := InitialFields c |}.

Definition setDisableStacktrace (x : bool) (c : Config) : Config :=
  {| Level := Level c; Development := Development c; DisableCaller := DisableCaller c;
     DisableStacktrace := x; Sampling := Sampling c; Encoding := Encoding c;
     EncoderConfig := EncoderConfig c; OutputPaths := OutputPaths c;
     ErrorOutputPaths := ErrorOutputPaths c; InitialFields := InitialFields c |}.

Definition setSampling (x : option SamplingConfig) (c : Config) : Config :=
  {| Level := Level c; Development := Development c; DisableCaller := DisableCaller c;
     DisableStacktrace := DisableStacktrace c; Sampling := x; Encoding := Encoding c;
     EncoderConfig := EncoderConfig c; OutputPaths := OutputPaths c;
     ErrorOutputPaths := ErrorOutputPaths c; InitialFields := InitialFields c |}.

Definition setEncoding (x : string) (c : Config) : Config :=
  {| Level := Level c; Development := Development c; DisableCaller := DisableCaller c;
     DisableStacktrace := DisableStacktrace c; Sampling := Sampling c; Encoding := x;
     EncoderConfig := EncoderConfig c; OutputPaths := OutputPaths c;
     ErrorOutputPaths := ErrorOutputPaths c; InitialFields := InitialFields c |}.

Definition setEncoderConfig (x : zapcore.EncoderConfig) (c : Config) : Config :=
  {| Level := Level c; Development := Development c; DisableCaller := DisableCaller c;
     DisableStacktrace := DisableStacktrace c; Sampling := Sampling c;
     Encoding := Encoding c; EncoderConfig := x; OutputPaths := OutputPaths c;
     ErrorOutputPaths := ErrorOutputPaths c; InitialFields := InitialFields c |}.

Definition setOutputPaths (x : list string) (c : Config) : Config :=
  {| Level := Level c; Development := Development c; DisableCaller := DisableCaller c;
     DisableStacktrace := DisableStacktrace c; Sampling := Sampling c;
     Encoding := Encoding c; EncoderConfig := EncoderConfig c; OutputPaths := x;
     ErrorOutputPaths := ErrorOutputPaths c; InitialFields := InitialFields c |}.

Definition setErrorOutputPaths (x : list string) (c : Config) : Config :=
  {| Level := Level c; Development := Development c; DisableCaller := DisableCaller c;
     DisableStacktrace := DisableStacktrace c; Sampling := Sampling c;
     Encoding := Encoding c; EncoderConfig := EncoderConfig c;
     OutputPaths := OutputPaths c; ErrorOutputPaths := x;
     InitialFields := InitialFields c |}.

Definition setInitialFields (x : option (gmap string Iface)) (c : Config) : Config :=
  {| Level := Level c; Development := Development c; DisableCaller := DisableCaller c;
     DisableStacktrace := DisableStacktrace c; Sampling := Sampling c;
     Encoding := Encoding c; EncoderConfig := EncoderConfig c;
     OutputPaths := OutputPaths c; ErrorOutputPaths := ErrorOutputPaths c;
     InitialFields := x |}.

(** [NewProductionEncoderConfig]. *)
Definition NewProductionEncoderConfig : zapcore.EncoderConfig :=
  {| MessageKey := "msg"; LevelKey := "level"; TimeKey := "ts"; NameKey := "logger";
     CallerKey := "caller"; FunctionKey := ""; StacktraceKey := "stacktrace";
     SkipLineEnding := false; LineEnding := String "010" EmptyString;
     EncodeLevel := Some LowercaseLevelEncoder;
     EncodeTime := Some EpochTimeEncoder;
     EncodeDuration := Some SecondsDurationEncoder;
     EncodeCaller := Some ShortCallerEncoder;
     EncodeName := None; ConsoleSeparator := "" |}.

(** *** Decoding ([json.Unmarshal] into a [zap.Config]) *)

(** The field a key names, in the table of a struct's JSON names: an exact
    match is preferred, a match after folding is accepted. *)
Definition fieldNamed {F : Type} (fields : list (string * F)) (key : string) : option F :=
  match find (fun nf => String.eqb (fst nf) key) fields with
  | Some nf => Some (snd nf)
  | None =>
    match find (fun nf => String.eqb (json.foldName (fst nf)) (json.foldName key))
               fields with
    | Some nf => Some (snd nf)
    | None => None
    end
  end.

Inductive configField :=
  | FLevel | FDevelopment | FDisableCaller | FDisableStacktrace | FSampling
  | FEncoding | FEncoderConfig | FOutputPaths | FErrorOutputPaths | FInitialFields.

Definition configFields : list (string * configField) :=
  [("level", FLevel); ("development", FDevelopment);
   ("disableCaller", FDisableCaller); ("disableStacktrace", FDisableStacktrace);
   ("sampling", FSampling); ("encoding", FEncoding);
   ("encoderConfig", FEncoderConfig); ("outputPaths", FOutputPaths);
   ("errorOutputPaths", FErrorOutputPaths); ("initialFields", FInitialFields)].

(** The field of [zap.Config] a key names; a key that names none is
    skipped with its value. *)
Definition fieldOf (key : string) : option configField := fieldNamed configFields key.

(** Outcome of storing one JSON value: the new content, with an error that
    is either saved (decoding goes on) or returned at once. *)
Inductive stored (A : Type) :=
  | Stored (a : A)
  | Mismatch (a : A) (e : error)
  | Abort (e : error).
Arguments Stored {A} a.
Arguments Mismatch {A} a e.
Arguments Abort {A} e.

Definition lift {A B : Type} (f : A -> B) (r : stored A) : stored B :=
  match r with
  | Stored a => Stored (f a)
  | Mismatch a e => Mismatch (f a) e
  | Abort e => Abort e
  end.

(** The members of an object stored in a struct, in order: a later member
    overrides an earlier one with the same key, a key that names no field
    is skipped, and the first saved mismatch is kept. *)
Fixpoint storeStruct {A F : Type} (fields : list (string * F))
  (store : F -> json.value -> A -> stored A)
  (ms : list (string * json.value)) (a : A) (saved : option error) : stored A :=
  match ms with
  | [] => match saved with None => Stored a | Some e => Mismatch a e end
  | (key, v) :: rest =>
    match fieldNamed fields key with
    | None => storeStruct fields store rest a saved
    | Some f =>
      match store f v a with
      | Stored a' => storeStruct fields store rest a' saved
      | Mismatch a' e =>
        storeStruct fields store rest a' (match saved with None => Some e | _ => saved end)
      | Abort e => Abort e
      end
    end
  end.

Definition storeString (name : string) (v : json.value) (old : string) : stored string :=
  match v with
  | json.JString s => Stored s
  | json.JNull => Stored old
  | _ => Mismatch old (UnmarshalTypeError name)
  end.

Definition storeBool (name : string) (v : json.value) (old : bool) : stored bool :=
  match v with
  | json.JBool b => Stored b
  | json.JNull => Stored old
  | _ => Mismatch old (UnmarshalTypeError name)
  end.

(** An [int], of 64 bits. *)
Definition storeInt (name : string) (v : json.value) (old : Z) : stored Z :=
  match v with
  | json.JNumber text =>
    match json.ParseInt text with
    | Some n => Stored n
    | None => Mismatch old (UnmarshalTypeError name)
    end
  | json.JNull => Stored old
  | _ => Mismatch old (UnmarshalTypeError name)
  end.

(** A value with [UnmarshalText] that cannot fail: the text of a string;
    [null] leaves it. *)
Definition storeText {A : Type} (unmarshal : string -> A) (name : string)
  (v : json.value) (old : option A) : stored (option A) :=
  match v with
  | json.JString s => Stored (Some (unmarshal s))
  | json.JNull => Stored old
  | _ => Mismatch old (UnmarshalTypeError name)
  end.

(** An [AtomicLevel]: the error of [Level.UnmarshalText] is returned at
    once. *)
Definition storeLevel (name : string) (v : json.value) (old : option zapcore.Level)
  : stored (option zapcore.Level) :=
  match v with
  | json.JString s =>
    match UnmarshalText s with
    | inl l => Stored (Some l)
    | inr e => Abort e
    end
  | json.JNull => Stored old
  | _ => Mismatch old (UnmarshalTypeError name)
  end.

(** [TimeEncoder.UnmarshalJSON]: an object with a layout, or else a string
    for [UnmarshalText]; [null] reads as an object without a layout.  Its
    error is returned at once. *)
Definition storeTimeEncoder (name : string) (v : json.value) (old : option TimeEncoder)
  : stored (option TimeEncoder) :=
  match v with
  | json.JString s => Stored (Some (unmarshalTimeEncoder s))
  | json.JNull => Stored (Some (LayoutTimeEncoder ""))
  | json.JObject ms =>
    match storeStruct [("layout", tt)] (fun _ => storeString "layout") ms "" None with
    | Stored layout => Stored (Some (LayoutTimeEncoder layout))
    | _ => Abort (UnmarshalTypeError name)
    end
  | _ => Abort (UnmarshalTypeError name)
  end.

(** The elements of an array stored in a [[]string] whose array holds
    [old]: a string replaces the element, [null] leaves what the array
    holds there, an element that is neither is a mismatch. *)
Fixpoint storeElems (name : string) (vs : list json.value) (old : list string)
  : list string * option error :=
  match vs with
  | [] => ([], None)
  | v :: rest =>
    let '(ss, e) := storeElems name rest (tail old) in
    match v with
    | json.JString s => (s :: ss, e)
    | json.JNull => (hd "" old :: ss, e)
    | _ => (hd "" old :: ss, Some (UnmarshalTypeError name))
    end
  end.

(** A [[]string] is its elements [old] and what its array holds beyond
    them, [spare]: an array shorter than the slice leaves the old elements
    there, and a later, longer one finds them.  An empty array gives a new
    slice, [null] the nil slice. *)
Definition storeStrings (name : string) (v : json.value) (old spare : list string)
  : stored (list string * list string) :=
  match v with
  | json.JArray [] => Stored ([], [])
  | json.JArray vs =>
    match storeElems name vs (old ++ spare) with
    | (ss, None) => Stored (ss, drop (List.length vs) (old ++ spare))
    | (ss, Some e) => Mismatch (ss, drop (List.length vs) (old ++ spare)) e
    end
  | json.JNull => Stored ([], [])
  | _ => Mismatch (old, spare) (UnmarshalTypeError name)
  end.

Inductive samplingField := FInitial | FThereafter.

Definition samplingFields : list (string * samplingField) :=
  [("initial", FInitial); ("thereafter", FThereafter)].

Definition storeSamplingField (f : samplingField) (v : json.value) (sc : SamplingConfig)
  : stored SamplingConfig :=
  match f with
  | FInitial =>
    lift (fun n => {| Initial := n; Thereafter := Thereafter sc |})
         (storeInt "sampling.initial" v (Initial sc))
  | FThereafter =>
    lift (fun n => {| Initial := Initial sc; Thereafter := n |})
         (storeInt "sampling.thereafter" v (Thereafter sc))
  end.

Definition zeroSampling : SamplingConfig := {| Initial := 0; Thereafter := 0 |}.

(** A [*SamplingConfig]: an object is stored in what the pointer points
    to, a new struct if it is nil; [null] makes it nil. *)
Definition storeSampling (name : string) (v : json.value) (old : option SamplingConfig)
  : stored (option SamplingConfig) :=
  match v with
  | json.JObject ms =>
    lift Some (storeStruct samplingFields storeSamplingField ms
                 (default zeroSampling old) None)
  | json.JNull => Stored None
  | _ => Mismatch (Some (default zeroSampling old)) (UnmarshalTypeError name)
  end.

(** A JSON value stored in an [interface{}]; a number that is no
    [float64] leaves nil and is a mismatch (see [json.badNumber]). *)
Definition interfaceOf (v : json.value) : Iface :=
  match v with
  | json.JNull => IValue VNil
  | json.JBool b => IValue (VBool b)
  | json.JString s => IValue (VString s)
  | json.JNumber text =>
    match json.ParseFloat text with
    | Some bits => IFloat64 bits
    | None => IValue VNil
    end
  | _ => IJson v
  end.

Fixpoint storeEntries (name : string) (ms : list (string * json.value))
  (m : gmap string Iface) (saved : option error) : gmap string Iface * option error :=
  match ms with
  | [] => (m, saved)
  | (key, v) :: rest =>
    storeEntries name rest (<[key := interfaceOf v]> m)
      (match saved, json.badNumber v with
       | None, Some _ => Some (UnmarshalTypeError name)
       | _, _ => saved
       end)
  end.

(** A [map[string]interface{}]: an object is stored in the map, a new one
    if it is nil; [null] makes it nil. *)
Definition storeMap (name : string) (v : json.value) (old : option (gmap string Iface))
  : stored (option (gmap string Iface)) :=
  match v with
  | json.JObject ms =>
    match storeEntries name ms (default ∅ old) None with
    | (m, None) => Stored (Some m)
    | (m, Some e) => Mismatch (Some m) e
    end
  | json.JNull => Stored None
  | _ => Mismatch old (UnmarshalTypeError name)
  end.

Inductive encoderField :=
  | FMessageKey | FLevelKey | FTimeKey | FNameKey | FCallerKey | FFunctionKey
  | FStacktraceKey | FSkipLineEnding | FLineEnding | FEncodeLevel | FEncodeTime
  | FEncodeDuration | FEncodeCaller | FEncodeName | FConsoleSeparator.

Definition encoderFields : list (string * encoderField) :=
  [("messageKey", FMessageKey); ("levelKey", FLevelKey); ("timeKey", FTimeKey);
   ("nameKey", FNameKey); ("callerKey", FCallerKey); ("functionKey", FFunctionKey);
   ("stacktraceKey", FStacktraceKey); ("skipLineEnding", FSkipLineEnding);
   ("lineEnding", FLineEnding); ("levelEncoder", FEncodeLevel);
   ("timeEncoder", FEncodeTime); ("durationEncoder", FEncodeDuration);
   ("callerEncoder", FEncodeCaller); ("nameEncoder", FEncodeName);
   ("consoleSeparator", FConsoleSeparator)].

Definition storeEncoderField (f : encoderField) (v : json.value)
  (ec : zapcore.EncoderConfig) : stored zapcore.EncoderConfig :=
  match f with
  | FMessageKey =>
    lift (fun x => setMessageKey x ec)
         (storeString "encoderConfig.messageKey" v (MessageKey ec))
  | FLevelKey =>
    lift (fun x => setLevelKey x ec)
         (storeString "encoderConfig.levelKey" v (LevelKey ec))
  | FTimeKey =>
    lift (fun x => setTimeKey x ec)
         (storeString "encoderConfig.timeKey" v (TimeKey ec))
  | FNameKey =>
    lift (fun x => setNameKey x ec)
         (storeString "encoderConfig.nameKey" v (NameKey ec))
  | FCallerKey =>
    lift (fun x => setCallerKey x ec)
         (storeString "encoderConfig.callerKey" v (CallerKey ec))
  | FFunctionKey =>
    lift (fun x => setFunctionKey x ec)
         (storeString "encoderConfig.functionKey" v (FunctionKey ec))
  | FStacktraceKey =>
    lift (fun x => setStacktraceKey x ec)
         (storeString "encoderConfig.stacktraceKey" v (StacktraceKey ec))
  | FSkipLineEnding =>
    lift (fun x => setSkipLineEnding x ec)
         (storeBool "encoderConfig.skipLineEnding" v (SkipLineEnding ec))
  | FLineEnding =>
    lift (fun x => setLineEnding x ec)
         (storeString "encoderConfig.lineEnding" v (LineEnding ec))
  | FEncodeLevel =>
    lift (fun x => setEncodeLevel x ec)
         (storeText unmarshalLevelEncoder "encoderConfig.levelEncoder" v (EncodeLevel ec))
  | FEncodeTime =>
    lift (fun x => setEncodeTime x ec)
         (storeTimeEncoder "encoderConfig.timeEncoder" v (EncodeTime ec))
  | FEncodeDuration =>
    lift (fun x => setEncodeDuration x ec)
         (storeText unmarshalDurationEncoder "encoderConfig.durationEncoder" v
                    (EncodeDuration ec))
  | FEncodeCaller =>
    lift (fun x => setEncodeCaller x ec)
         (storeText unmarshalCallerEncoder "encoderConfig.callerEncoder" v (EncodeCaller ec))
  | FEncodeName =>
    lift (fun x => setEncodeName x ec)
         (storeText unmarshalNameEncoder "encoderConfig.nameEncoder" v (EncodeName ec))
  | FConsoleSeparator =>
    lift (fun x => setConsoleSeparator x ec)
         (storeString "encoderConfig.consoleSeparator" v (ConsoleSeparator ec))
  end.

(** A [zapcore.EncoderConfig]: an object is stored member by member;
    [null] leaves the struct. *)
Definition storeEncoderConfig (name : string) (v : json.value)
  (old : zapcore.EncoderConfig) : stored zapcore.EncoderConfig :=
  match v with
  | json.JObject ms => storeStruct encoderFields storeEncoderField ms old None
  | json.JNull => Stored old
  | _ => Mismatch old (UnmarshalTypeError name)
  end.

(** A [zap.Config] while it is decoded, with what the arrays of its two
    slices hold beyond their elements. *)
Record decoding := {
  config : Config;
  spareOutput : list string;
  spareError : list string
}.

Definition onConfig (f : Config -> Config) (d : decoding) : decoding :=
  {| config := f (config d); spareOutput := spareOutput d; spareError := spareError d |}.

Definition storeField (f : configField) (v : json.value) (d : decoding) : stored decoding :=
  let cfg := config d in
  match f with
  | FLevel =>
    lift (fun x => onConfig (setLevel x) d) (storeLevel "level" v (Level cfg))
  | FDevelopment =>
    lift (fun x => onConfig (setDevelopment x) d)
         (storeBool "development" v (Development cfg))
  | FDisableCaller =>
    lift (fun x => onConfig (setDisableCaller x) d)
         (storeBool "disableCaller" v (DisableCaller cfg))
  | FDisableStacktrace =>
    lift (fun x => onConfig (setDisableStacktrace x) d)
         (storeBool "disableStacktrace" v (DisableStacktrace cfg))
  | FSampling =>
    lift (fun x => onConfig (setSampling x) d) (storeSampling "sampling" v (Sampling cfg))
  | FEncoding =>
    lift (fun x => onConfig (setEncoding x) d) (storeString "encoding" v (Encoding cfg))
  | FEncoderConfig =>
    lift (fun x => onConfig (setEncoderConfig x) d)
         (storeEncoderConfig "encoderConfig" v (EncoderConfig cfg))
  | FOutputPaths =>
    lift (fun x => {| config := setOutputPaths (fst x) cfg;
                      spareOutput := snd x; spareError := spareError d |})
         (storeStrings "outputPaths" v (OutputPaths cfg) (spareOutput d))
  | FErrorOutputPaths =>
    lift (fun x => {| config := setErrorOutputPaths (fst x) cfg;
                      spareOutput := spareOutput d; spareError := snd x |})
         (storeStrings "errorOutputPaths" v (ErrorOutputPaths cfg) (spareError d))
  | FInitialFields =>
    lift (fun x => onConfig (setInitialFields x) d)
         (storeMap "initialFields" v (InitialFields cfg))
  end.

(** The members of the top-level object; a saved mismatch is the error of
    the whole, and what was decoded is dropped. *)
Definition storeMembers (ms : list (string * json.value)) (cfg : Config)
  (saved : option error) : Config + error :=
  match storeStruct configFields storeField ms
          {| config := cfg; spareOutput := []; spareError := [] |} saved with
  | Stored d => inl (config d)
  | Mismatch _ e => inr e
  | Abort e => inr e
  end.

(** [json.Unmarshal(data, &config)] for a [zap.Config]. *)
Definition Unmarshal (data : string) (cfg : Config) : Config + error :=
  match json.parse data with
  | None => inr SyntaxError
  | Some (json.JObject ms) => storeMembers ms cfg None
  | Some json.JNull => inl cfg
  | Some _ => inr (UnmarshalTypeError "")
  end.

(** *** Fields *)

Definition nilIface : Iface := IValue VNil.

Definition String (key val : string) : Field :=
  {| Key := key; Kind := StringType; Integer := 0; Str := val; Interface := nilIface |}.

Definition Bool (key : string) (val : bool) : Field :=
  {| Key := key; Kind := BoolType; Integer := if val then 1 else 0;
     Str := ""; Interface := nilIface |}.

Definition Int64 (key : string) (val : Z) : Field :=
  {| Key := key; Kind := Int64Type; Integer := val; Str := ""; Interface := nilIface |}.

Definition Int (key : string) (val : Z) : Field := Int64 key val.

(** [val] stands for the [float64] by its bits. *)
Definition Float64 (key : string) (val : Z) : Field :=
  {| Key := key; Kind := Float64Type; Integer := wrapInt64 val; Str := "";
     Interface := nilIface |}.

Definition Reflect (key : string) (val : Iface) : Field :=
  {| Key := key; Kind := ReflectType; Integer := 0; Str := ""; Interface := val |}.

(** [zap.Any]: a typed field for the types it knows, [Reflect] otherwise. *)
Definition Any (key : string) (value : Iface) : Field :=
  match value with
  | IValue (VString s) => String key s
  | IValue (VBool b) => Bool key b
  | IValue (VInt n) => Int key n
  | IFloat64 bits => Float64 key bits
  | _ => Reflect key value
  end.

(** *** Loggers *)

(** The sampler of a core: the counters it shares, by the place they are
    kept at, and its two numbers as [uint64]. *)
Record Sampler := {
  counts : nat;
  first : Z;
  thereafter : Z
}.

Record Logger := {
  core : Config;             (* the configuration its core was built from *)
  sampler : option Sampler;  (* the sampler around the core *)
  callerSkip : Z;
  context : list Field       (* the fields the core carries *)
}.

Definition registered (name : string) : bool :=
  String.eqb name "json" || String.eqb name "console".

(** [newSink]: the standard streams are always there; whether another path
    can be opened is up to the file system, [opens]. *)
Definition sinkOpens (opens : string -> bool) (path : string) : bool :=
  String.eqb path "stdout" || String.eqb path "stderr" || opens path.

Fixpoint insertByKey (kv : string * Iface) (l : list (string * Iface))
  : list (string * Iface) :=
  match l with
  | [] => [kv]
  | kv' :: rest =>
    if String.leb (fst kv) (fst kv') then kv :: l else kv' :: insertByKey kv rest
  end.

(** The option [Fields] of [buildOptions]: the initial fields in the order
    of their keys, each through [Any]. *)
Definition initialFields (cfg : Config) : list Field :=
  match InitialFields cfg with
  | None => []
  | Some m =>
    map (fun kv => Any (fst kv) (snd kv)) (foldr insertByKey [] (map_to_list m))
  end.

(** [newEncoder] refuses a configuration with a time key and no encoder
    for it. *)
Definition missingEncodeTime (ec : zapcore.EncoderConfig) : bool :=
  negb (String.eqb (TimeKey ec) "")
  && match EncodeTime ec with None => true | Some _ => false end.

(** [Config.Build]: the encoder, the sinks, the error sinks, the level,
    and then the options: the sampler, with counters of its own at
    [fresh], and the initial fields. *)
Definition Build (opens : string -> bool) (fresh : nat) (cfg : Config) : Logger + error :=
  if missingEncodeTime (EncoderConfig cfg) then inr MissingEncodeTime
  else if negb (registered (Encoding cfg)) then inr (NoEncoder (Encoding cfg))
  else
    match find (fun p => negb (sinkOpens opens p)) (OutputPaths cfg) with
    | Some p => inr (OpenSink p)
    | None =>
      match find (fun p => negb (sinkOpens opens p)) (ErrorOutputPaths cfg) with
      | Some p => inr (OpenSink p)
      | None =>
        match Level cfg with
        | None => inr MissingLevel
        | Some _ =>
          inl {| core := cfg;
                 sampler :=
                   match Sampling cfg with
                   | None => None
                   | Some sc =>
                     Some {| counts := fresh;
                             first := wrapUint64 (Initial sc);
                             thereafter := wrapUint64 (Thereafter sc) |}
                   end;
                 callerSkip := 0;
                 context := initialFields cfg |}
        end
      end
    end.

(** Go's [int] on a 64-bit platform. *)
Definition wrapInt (x : Z) : Z := (x + 2 ^ 63) mod 2 ^ 64 - 2 ^ 63.

Definition LoggerOption : Type := Logger -> Logger.

Definition AddCallerSkip (skip : Z) : LoggerOption :=
  fun log => {| core := core log; sampler := sampler log;
                callerSkip := wrapInt (callerSkip log + skip);
                context := context log |}.

Definition WithOptions (log : Logger) (opts : list LoggerOption) : Logger :=
  foldl (fun l o => o l) log opts.

Definition With (log : Logger) (fields : list Field) : Logger :=
  match fields with
  | [] => log
  | _ => {| core := core log; sampler := sampler log; callerSkip := callerSkip log;
            context := context log ++ fields |}
  end.

(** *** Entries *)

Record Entry := {
  entLevel : zapcore.Level;
  entMessage : string;
  entFields : list Field;      (* the core's fields, then the call's *)
  entCallerSkip : Z;
  entCore : Config             (* the core that wrote it *)
}.

Inductive CheckWriteAction := WriteThenNoop | WriteThenPanic | WriteThenFatal.

(** [Logger.check] and [CheckedEntry.Write], at the time [tn] and with
    the counters [cs] of the logger's sampler: the entry the core writes,
    if its level is enabled and its sampler, if it has one, lets the entry
    through; what happens after the write; and the counters afterwards. *)
Definition check (tn : Z) (cs : gmap (Z * Z) (Z * Z)) (log : Logger)
  (lvl : zapcore.Level) (msg : string) (fields : list Field)
  : option Entry * CheckWriteAction * gmap (Z * Z) (Z * Z) :=
  let ent :=
    {| entLevel := lvl; entMessage := msg;
       entFields := context log ++ fields;
       entCallerSkip := callerSkip log; entCore := core log |} in
  let action :=
    match lvl with
    | PanicLevel => WriteThenPanic
    | FatalLevel => WriteThenFatal
    | DPanicLevel => if Development (core log) then WriteThenPanic else WriteThenNoop
    | _ => WriteThenNoop
    end in
  match Level (core log) with
  | Some l =>
    if Enabled l lvl then
      match sampler log with
      | None => (Some ent, action, cs)
      | Some sp =>
        let '(keep, cs') := sample (first sp) (thereafter sp) tn lvl msg cs in
        (if keep then Some ent else None, action, cs')
      end
    else (None, action, cs)
  | None => (None, action, cs)
  end.

End zap.

(** ** Package context *)

Module context.

(** The contexts of the standard library, as far as [Value] sees them: the
    empty context and the chain built by [WithValue]. *)
Inductive Context :=
  | emptyCtx
  | valueCtx (parent : Context) (key val : Value).

Definition Background : Context := emptyCtx.

Definition WithValue (parent : Context) (key val : Value) : Context :=
  valueCtx parent key val.

(** [ctx.Value(key)]: the value bound last to [key], [nil] when there is none. *)
Fixpoint Value (c : Context) (key : Value) : Value :=
  match c with
  | emptyCtx => VNil
  | valueCtx parent k v => if decide (k = key) then v else Value parent key
  end.

End context.

(** ** Package log *)

Module golog.

Definition Ldate : Z := 1.
Definition Ltime : Z := 2.
Definition Lmicroseconds : Z := 4.
Definition Llongfile : Z := 8.
Definition Lshortfile : Z := 16.
Definition LstdFlags : Z := Z.lor Ldate Ltime.

End golog.

(** ** Package logger: the facade *)

Module logger.

(** The process: the package variable [defaultLogger], the flags of the
    standard logger, what the zap cores have written so far, the file
    system's answer to opening a sink, the clock ([time.Now] in
    nanoseconds), and the counters of the samplers that were built. *)
Record State := {
  defaultLogger : option zap.Logger;
  logFlags : Z;
  written : list zap.Entry;
  opens : string -> bool;
  now : Z;
  samplers : gmap nat (gmap (Z * Z) (Z * Z))
}.

Definition setLogger (l : option zap.Logger) (s : State) : State :=
  {| defaultLogger := l; logFlags := logFlags s;
     written := written s; opens := opens s;
     now := now s; samplers := samplers s |}.

Definition setFlags (flags : Z) (s : State) : State :=
  {| defaultLogger := defaultLogger s; logFlags := flags;
     written := written s; opens := opens s;
     now := now s; samplers := samplers s |}.

Definition addWritten (es : list zap.Entry) (s : State) : State :=
  {| defaultLogger := defaultLogger s; logFlags := logFlags s;
     written := written s ++ es; opens := opens s;
     now := now s; samplers := samplers s |}.

(** The counters of the sampler of [log]; a logger without a sampler has
    none to read or to set. *)
Definition countersOf (log : zap.Logger) (s : State) : gmap (Z * Z) (Z * Z) :=
  match zap.sampler log with
  | Some sp => default ∅ (samplers s !! zap.counts sp)
  | None => ∅
  end.

Definition setCounters (log : zap.Logger) (cs : gmap (Z * Z) (Z * Z)) (s : State) : State :=
  match zap.sampler log with
  | Some sp =>
    {| defaultLogger := defaultLogger s; logFlags := logFlags s;
       written := written s; opens := opens s;
       now := now s; samplers := <[zap.counts sp := cs]> (samplers s) |}
  | None => s
  end.

(** A place for counters that no sampler built so far has. *)
Definition freshSampler (s : State) : nat := fresh (dom (samplers s)).

(** A call returns, panics, or ends the process. *)
Inductive Outcome (A : Type) :=
  | Return (a : A) (s : State)
  | Panicked (msg : string) (s : State)
  | Exited (code : Z) (s : State).
Arguments Return {A} a s.
Arguments Panicked {A} msg s.
Arguments Exited {A} code s.

Definition M (A : Type) : Type := State -> Outcome A.

Definition ret {A} (a : A) : M A := fun s => Return a s.

Definition bind {A B} (m : M A) (k : A -> M B) : M B :=
  fun s =>
    match m s with
    | Return a s' => k a s'
    | Panicked msg s' => Panicked msg s'
    | Exited code s' => Exited code s'
    end.

Notation "x <- m ;; k" := (bind m (fun x => k))
  (at level 100, m at level 99, right associativity).
Notation "m ;;; k" := (bind m (fun _ => k))
  (at level 100, right associativity).

(** [log.SetFlags] and [log.Fatal] of the standard logger. *)
Definition SetFlags (flags : Z) : M unit := fun s => Return tt (setFlags flags s).

Definition logFatal {A} (err : error) : M A := fun s => Exited 1 s.

(** A call of a zap logger at a level: [log.Debug(msg, fields...)] and so on. *)
Definition logAt (log : zap.Logger) (lvl : zapcore.Level) (msg : string)
  (fields : list zapcore.Field) : M unit :=
  fun s =>
    let '(ent, action, cs) :=
      zap.check (now s) (countersOf log s) log lvl msg fields in
    let s' :=
      addWritten (match ent with Some e => [e] | None => [] end)
                 (setCounters log cs s) in
    match action with
    | zap.WriteThenNoop => Return tt s'
    | zap.WriteThenPanic => Panicked msg s'
    | zap.WriteThenFatal => Exited 1 s'
    end.

(** A method call on the nil [*zap.Logger]. *)
Definition nilDereference {A} : M A :=
  fun s => Panicked "invalid memory address or nil pointer dereference" s.

(** *** InitLogger *)

Definition nl : string := String "010" EmptyString.
Definition tab : string := String "009" EmptyString.

(** The two configuration texts, with their verbs. *)
Definition fileFormat : string :=
  "{" +:+ nl +:+
  "      " +:+ tab +:+ tab +:+ dq +:+ "level" +:+ dq +:+ ": " +:+ dq +:+ "%s" +:+ dq +:+ "," +:+ nl +:+
  "      " +:+ tab +:+ tab +:+ dq +:+ "encoding" +:+ dq +:+ ": " +:+ dq +:+ "%s" +:+ dq +:+ "," +:+ nl +:+
  "      " +:+ tab +:+ tab +:+ dq +:+ "outputPaths" +:+ dq +:+ ": [" +:+ dq +:+ "%s" +:+ dq +:+ "]," +:+ nl +:+
  "      " +:+ tab +:+ tab +:+ dq +:+ "errorOutputPaths" +:+ dq +:+ ": [" +:+ dq +:+ "%s" +:+ dq +:+ "]" +:+ nl +:+
  "      " +:+ tab +:+ "}".

Definition consoleFormat : string :=
  "{" +:+ nl +:+
  "      " +:+ tab +:+ tab +:+ dq +:+ "level" +:+ dq +:+ ": " +:+ dq +:+ "%s" +:+ dq +:+ "," +:+ nl +:+
  "            " +:+ dq +:+ "encoding" +:+ dq +:+ ": " +:+ dq +:+ "%s" +:+ dq +:+ "," +:+ nl +:+
  "      " +:+ tab +:+ tab +:+ dq +:+ "outputPaths" +:+ dq +:+ ": [" +:+ dq +:+ "stdout" +:+ dq +:+ "]," +:+ nl +:+
  "            " +:+ dq +:+ "errorOutputPaths" +:+ dq +:+ ": [" +:+ dq +:+ "stdout" +:+ dq +:+ "]" +:+ nl +:+
  tab +:+ tab +:+ "}".

(** The formats of the line that reports the configuration. *)
Definition fileSummary : string :=
  "initialize logger finish, base config is isSave=%t, filename=%s, level=%s, encoding=%s".

Definition consoleSummary : string :=
  "initialize logger finish, base config is isSave=%t, level=%s, encoding=%s".

(** The time encoder of the console: [t.Format] with a fixed layout. *)
Definition timeFormatter : zapcore.TimeEncoder :=
  zapcore.LayoutTimeEncoder "2006-01-02 15:04:05.000".

(** The path the log is saved to. *)
Definition resolveFilename (isSave : bool) (filename : string) : string :=
  if isSave && String.eqb filename "" then "out.log" else filename.

(** The [switch] on [strings.ToUpper(level)]. *)
Definition resolveLevel (level : string) : string :=
  let upper := gostrings.ToUpper level in
  if String.eqb upper "DEBUG" then "DEBUG"
  else if String.eqb upper "INFO" then "INFO"
  else if String.eqb upper "WARN" then "WARN"
  else if String.eqb upper "ERROR" then "ERROR"
  else "DEBUG".

Definition resolveEncoding (isSave : bool) (encodingType : list string) : string :=
  if isSave then "json"
  else
    match encodingType with
    | e :: _ => if String.eqb e "json" then "json" else "console"
    | [] => "console"
    end.

(** The text [js] handed to [json.Unmarshal]; [filename] is resolved already. *)
Definition configText (isSave : bool) (filename level : string)
  (encodingType : list string) : string :=
  let levelName := resolveLevel level in
  let encoding := resolveEncoding isSave encodingType in
  if isSave then
    fmt.Sprintf fileFormat
      [VString levelName; VString encoding; VString filename; VString filename]
  else
    fmt.Sprintf consoleFormat [VString levelName; VString encoding].

(** The assignments to [config.EncoderConfig]: the production
    configuration, with [enc] to encode the time. *)
Definition setEncodeTime (enc : zapcore.TimeEncoder) (cfg : zap.Config) : zap.Config :=
  zap.setEncoderConfig
    (zapcore.setEncodeTime (Some enc) zap.NewProductionEncoderConfig) cfg.

Section recursion.

(** [InitLogger] reports through [Infof], which obtains its logger from
    [getLogger], which may call [InitLogger]: [init] stands for that call. *)
Variable init : bool -> string -> string -> list string -> M (option error).

Definition getLoggerWith : M zap.Logger :=
  (fun s =>
     match defaultLogger s with
     | None =>
       (err <- init false "" "debug" [] ;;
        match err with
        | Some e => logFatal e
        | None => ret tt
        end) s
     | Some _ => Return tt s
     end) ;;;
  (fun s =>
     match defaultLogger s with
     | Some l => Return (zap.WithOptions l [zap.AddCallerSkip 1]) s
     | None => nilDereference s
     end).

Definition InfofWith (format : string) (a : list Value) : M unit :=
  l <- getLoggerWith ;; logAt l zapcore.InfoLevel (fmt.Sprintf format a) [].

Definition InitLoggerWith (isSave : bool) (filename level : string)
  (encodingType : list string) : M (option error) :=
  SetFlags (Z.lor golog.Lmicroseconds (Z.lor golog.Lshortfile golog.LstdFlags)) ;;;
  let filename := resolveFilename isSave filename in
  let encoding := resolveEncoding isSave encodingType in
  let js := configText isSave filename level encodingType in
  match zap.Unmarshal js zap.zeroConfig with
  | inr err => ret (Some err)
  | inl config =>
    let config :=
      setEncodeTime (if isSave then zapcore.ISO8601TimeEncoder else timeFormatter)
        config in
    fun s =>
      match zap.Build (opens s) (freshSampler s) config with
      | inr err => Return (Some err) (setLogger None s)
      | inl lg =>
        ((if isSave then
            InfofWith fileSummary
              [VBool isSave; VString filename; VString level; VString encoding]
          else
            InfofWith consoleSummary
              [VBool isSave; VString level; VString encoding]) ;;;
         ret None) (setLogger (Some lg) (setCounters lg ∅ s))
      end
  end.

(** [GetLogger], for any initialisation it may fall back on. *)
Definition GetLoggerWith (skip : Z) : M zap.Logger :=
  (fun s =>
     match defaultLogger s with
     | None =>
       (err <- init false "" "debug" [] ;;
        match err with
        | Some e => logFatal e
        | None => ret tt
        end) s
     | Some _ => Return tt s
     end) ;;;
  (fun s =>
     match defaultLogger s with
     | Some l => Return (zap.WithOptions l [zap.AddCallerSkip skip]) s
     | None => nilDereference s
     end).

End recursion.

(** The nested call is never reached: when [InitLogger] calls [Infof] it
    has just stored a logger.  [InitLogger_unfold] below states that this
    definition satisfies the recursive equation of the source. *)
Definition InitLogger : bool -> string -> string -> list string -> M (option error) :=
  InitLoggerWith (fun _ _ _ _ => ret None).

Definition getLogger : M zap.Logger := getLoggerWith InitLogger.

(** *** Ctx *)

Definition keys : list string :=
  ["X-B3-TraceId"; "X-B3-SpanId"; "X-B3-ParentSpanId"; "X-Span-Name"].

Definition traceFields (ctx : option context.Context) : gmap string Value :=
  match ctx with
  | None => ∅
  | Some c =>
    foldl (fun (fieldsMap : gmap string Value) key =>
             let v := context.Value c (VString key) in
             if decide (v = VNil) then fieldsMap else <[key := v]> fieldsMap)
          ∅ keys
  end.

Definition Any (key : string) (val : Iface) : zapcore.Field := zap.Any key val.

Definition Ctx (ctx : option context.Context) : M zap.Logger :=
  let fieldsMap := traceFields ctx in
  if (0 <? size fieldsMap)%nat then
    l <- getLogger ;; ret (zap.With l [Any "context" (IMap fieldsMap)])
  else getLogger.

(** *** The leveled calls *)

Definition Debug (msg : string) (fields : list zapcore.Field) : M unit :=
  l <- getLogger ;; logAt l zapcore.DebugLevel msg fields.

Definition Info (msg : string) (fields : list zapcore.Field) : M unit :=
  l <- getLogger ;; logAt l zapcore.InfoLevel msg fields.

Definition Warn (msg : string) (fields : list zapcore.Field) : M unit :=
  l <- getLogger ;; logAt l zapcore.WarnLevel msg fields.

Definition Error (msg : string) (fields : list zapcore.Field) : M unit :=
  l <- getLogger ;; logAt l zapcore.ErrorLevel msg fields.

Definition Panic (msg : string) (fields : list zapcore.Field) : M unit :=
  l <- getLogger ;; logAt l zapcore.PanicLevel msg fields.

Definition Fatal (msg : string) (fields : list zapcore.Field) : M unit :=
  l <- getLogger ;; logAt l zapcore.FatalLevel msg fields.

Definition Debugf (format : string) (a : list Value) : M unit :=
  l <- getLogger ;; logAt l zapcore.DebugLevel (fmt.Sprintf format a) [].

Definition Infof (format : string) (a : list Value) : M unit :=
  l <- getLogger ;; logAt l zapcore.InfoLevel (fmt.Sprintf format a) [].

Definition Warnf (format : string) (a : list Value) : M unit :=
  l <- getLogger ;; logAt l zapcore.WarnLevel (fmt.Sprintf format a) [].

Definition Errorf (format : string) (a : list Value) : M unit :=
  l <- getLogger ;; logAt l zapcore.ErrorLevel (fmt.Sprintf format a) [].

Definition Fatalf (format : string) (a : list Value) : M unit :=
  l <- getLogger ;; logAt l zapcore.FatalLevel (fmt.Sprintf format a) [].

Definition WithFields (fields : list zapcore.Field) : M zap.Logger :=
  l <- getLogger ;; ret (zap.With l fields).

(** *** GetLogger *)

Definition GetLogger (skip : Z) : M zap.Logger := GetLoggerWith InitLogger skip.

(** *** The rest of the re-exported field constructors *)

Definition Int (key : string) (val : Z) : zapcore.Field := zap.Int key val.
Definition Int64 (key : string) (val : Z) : zapcore.Field := zap.Int64 key val.
Definition Bool (key : string) (val : bool) : zapcore.Field := zap.Bool key val.
Definition String (key val : string) : zapcore.Field := zap.String key val.

(** [val] stands for the [float64] by its bits. *)
Definition Float64 (key : string) (val : Z) : zapcore.Field := zap.Float64 key val.

(** A process that has not touched the logger: no [defaultLogger], the
    standard flags, nothing written, no sampler built; its clock stands at
    the start of the epoch. *)
Definition initial (opens : string -> bool) : State :=
  {| defaultLogger := None; logFlags := golog.LstdFlags;
     written := []; opens := opens; now := 0; samplers := ∅ |}.

(** *** The leveled calls as a family

    [logger.go] declares the six calls [Debug] ... [Fatal]; it declares the
    formatted calls [Debugf], [Infof], [Warnf], [Errorf] and [Fatalf], and
    no [Panicf]. *)

Inductive LevelCall := CDebug | CInfo | CWarn | CError | CPanic | CFatal.

Definition leveled (c : LevelCall) : string -> list zapcore.Field -> M unit :=
  match c with
  | CDebug => Debug
  | CInfo => Info
  | CWarn => Warn
  | CError => Error
  | CPanic => Panic
  | CFatal => Fatal
  end.

Definition formatted (c : LevelCall) : option (string -> list Value -> M unit) :=
  match c with
  | CDebug => Some Debugf
  | CInfo => Some Infof
  | CWarn => Some Warnf
  | CError => Some Errorf
  | CPanic => None
  | CFatal => Some Fatalf
  end.

(** *** Parts of InitLogger, named for the statements below *)

(** The flags [InitLogger] sets on the standard logger. *)
Definition initFlags : Z :=
  Z.lor golog.Lmicroseconds (Z.lor golog.Lshortfile golog.LstdFlags).

Definition encodeTimeOf (isSave : bool) : zapcore.TimeEncoder :=
  if isSave then zapcore.ISO8601TimeEncoder else timeFormatter.

(** The message of the line that reports the configuration. *)
Definition summary (isSave : bool) (filename level : string)
  (encodingType : list string) : string :=
  let filename := resolveFilename isSave filename in
  let encoding := resolveEncoding isSave encodingType in
  if isSave then
    fmt.Sprintf fileSummary
      [VBool isSave; VString filename; VString level; VString encoding]
  else
    fmt.Sprintf consoleSummary [VBool isSave; VString level; VString encoding].

(** What the core of [lg] writes for [Infof]'s call with message [msg],
    when its sampler, if it has one, has counted nothing yet. *)
Definition reported (lg : zap.Logger) (msg : string) : list zap.Entry :=
  match fst (fst (zap.check 0 ∅ (zap.WithOptions lg [zap.AddCallerSkip 1])
                            zapcore.InfoLevel msg [])) with
  | Some e => [e]
  | None => []
  end.

(** The counters of a sampler after it has counted [Infof]'s call with
    message [msg] as its first, at the time [tn]. *)
Definition counted (tn : Z) (lg : zap.Logger) (msg : string) : gmap (Z * Z) (Z * Z) :=
  snd (zap.check tn ∅ (zap.WithOptions lg [zap.AddCallerSkip 1])
                 zapcore.InfoLevel msg []).

(** The process after [Build] has given [lg], with new counters if it has
    a sampler, and [Infof] has reported [msg] through it. *)
Definition installed (lg : zap.Logger) (msg : string) (s : State) : State :=
  addWritten (reported lg msg)
    (setCounters lg (counted (now s) lg msg)
       (setLogger (Some lg) (setCounters lg ∅ s))).

(** The text for a file, cut where the file name is spliced in. *)
Definition filePre (levelName : string) : string :=
  "{" +:+ nl +:+
  "      " +:+ tab +:+ tab +:+ dq +:+ "level" +:+ dq +:+ ": " +:+ dq +:+ levelName +:+ dq +:+ "," +:+ nl +:+
  "      " +:+ tab +:+ tab +:+ dq +:+ "encoding" +:+ dq +:+ ": " +:+ dq +:+ "json" +:+ dq +:+ "," +:+ nl +:+
  "      " +:+ tab +:+ tab +:+ dq +:+ "outputPaths" +:+ dq +:+ ": [" +:+ dq.

Definition fileMid : string :=
  dq +:+ "]," +:+ nl +:+
  "      " +:+ tab +:+ tab +:+ dq +:+ "errorOutputPaths" +:+ dq +:+ ": [" +:+ dq.

Definition filePost : string := dq +:+ "]" +:+ nl +:+ "      " +:+ tab +:+ "}".

(** What a call hands back to its caller, and the logger it leaves. *)
Definition stateOf {A} (o : Outcome A) : State :=
  match o with
  | Return _ s => s
  | Panicked _ s => s
  | Exited _ s => s
  end.

Definition returned {A} (o : Outcome A) : option A :=
  match o with
  | Return a _ => Some a
  | _ => None
  end.

End logger.

(** ** Notions of the specification *)

Definition isUpperLetter (c : ascii) : bool := (65 <=? byte c) && (byte c <=? 90).

Fixpoint upperWord (name : string) : bool :=
  match name with
  | EmptyString => true
  | String c rest => isUpperLetter c && upperWord rest
  end.

(** [level] is [name] up to the case of its ASCII letters. *)
Fixpoint caseVariation (name level : string) : bool :=
  match name, level with
  | EmptyString, EmptyString => true
  | String c name', String b level' =>
    Ascii.eqb (gostrings.lowerByte b) (gostrings.lowerByte c)
    && caseVariation name' level'
  | _, _ => false
  end.

(** [level] spells the upper-case word [name]: letter by letter in either
    case, where U+0131 (bytes 196 177) also stands for I and U+017F (bytes
    197 191) for S. *)
Fixpoint spells (name level : string) : bool :=
  match name with
  | EmptyString => match level with EmptyString => true | _ => false end
  | String C name' =>
    match level with
    | EmptyString => false
    | String b rest =>
      if Ascii.eqb (gostrings.upperByte b) C then spells name' rest
      else
        match rest with
        | String b2 rest2 =>
          if (Ascii.eqb C "I" && (byte b =? 196) && (byte b2 =? 177))
             || (Ascii.eqb C "S" && (byte b =? 197) && (byte b2 =? 191))
          then spells name' rest2 else false
        | EmptyString => false
        end
    end
  end.

(** A file name of printable ASCII without double quote and backslash. *)
Fixpoint plain (filename : string) : bool :=
  match filename with
  | EmptyString => true
  | String c rest =>
    (32 <=? byte c) && (byte c <? 128)
    && negb (Ascii.eqb c json.dquote) && negb (Ascii.eqb c json.backslash)
    && plain rest
  end.

Definition isLowerLetter (c : ascii) : bool := (97 <=? byte c) && (byte c <=? 122).

Fixpoint lowerWord (name : string) : bool :=
  match name with
  | EmptyString => true
  | String c rest => isLowerLetter c && lowerWord rest
  end.

Fixpoint contains (c : ascii) (s : string) : bool :=
  match s with
  | EmptyString => false
  | String b rest => Ascii.eqb b c || contains c rest
  end.

(** Whether the sampler [Build] makes for [cfg], if it makes one, lets the
    first entry it counts through: its first number is not 0, or every
    entry thereafter passes. *)
Definition keepsFirst (cfg : zap.Config) : bool :=
  match zap.Sampling cfg with
  | None => true
  | Some sc =>
    negb (zapcore.wrapUint64 (zap.Initial sc) =? 0)
    || (zapcore.wrapUint64 (zap.Thereafter sc) =? 1)
  end.

(** The names of the four levels [InitLogger] knows. *)
Definition levelNames : list string := ["debug"; "info"; "warn"; "error"].

(** "info" written with a dotless i (U+0131). *)
Definition dotlessInfo : string := String (chr 196) (String (chr 177) "nfo").

(** A file name with a double quote in it: [a","b]. *)
Definition twoPaths : string := "a" +:+ dq +:+ "," +:+ dq +:+ "b".

(** ** Loggers, contexts and processes used in the statements *)

(** A configuration as a text of [InitLogger] without members of the file
    name's own decodes to: a level, an encoding, the same output paths and
    error-output paths, and every other member as in the zero [zap.Config]:
    no sampling, no initial fields, an empty [EncoderConfig]. *)
Definition decoded (level : option zapcore.Level) (encoding : string)
  (paths : list string) : zap.Config :=
  {| zap.Level := level; zap.Development := false; zap.DisableCaller := false;
     zap.DisableStacktrace := false; zap.Sampling := None; zap.Encoding := encoding;
     zap.EncoderConfig := zapcore.zeroEncoderConfig; zap.OutputPaths := paths;
     zap.ErrorOutputPaths := paths; zap.InitialFields := None |}.

(** The configuration [InitLogger] hands to [Build] for the console. *)
Definition consoleConfig (l : zapcore.Level) (encoding : string) : zap.Config :=
  logger.setEncodeTime logger.timeFormatter (decoded (Some l) encoding ["stdout"]).

(** The logger [InitLogger] builds for the console. *)
Definition consoleLogger (l : zapcore.Level) (encoding : string) : zap.Logger :=
  {| zap.core := consoleConfig l encoding; zap.sampler := None;
     zap.callerSkip := 0; zap.context := [] |}.

(** The configuration [InitLogger] hands to [Build] for a file. *)
Definition fileConfig (l : zapcore.Level) (path : string) : zap.Config :=
  logger.setEncodeTime zapcore.ISO8601TimeEncoder (decoded (Some l) "json" [path]).

(** The logger [InitLogger] builds for a file. *)
Definition fileLogger (l : zapcore.Level) (path : string) : zap.Logger :=
  {| zap.core := fileConfig l path; zap.sampler := None;
     zap.callerSkip := 0; zap.context := [] |}.

(** The process after the default initialisation [InitLogger(false, "", "debug")]. *)
Definition afterDefaultInit (s : logger.State) : logger.State :=
  logger.addWritten
    (logger.reported (consoleLogger zapcore.DebugLevel "console")
                     (logger.summary false "" "debug" []))
    (logger.setLogger (Some (consoleLogger zapcore.DebugLevel "console"))
       (logger.setFlags logger.initFlags s)).

(** File systems on which every path, or no path, can be opened. *)
Definition allOpen : string -> bool := fun _ => true.
Definition noneOpen : string -> bool := fun _ => false.

(** An initialisation that fails, whatever it is asked. *)
Definition failingInit : bool -> string -> string -> list string -> logger.M (option error) :=
  fun _ _ _ _ s => logger.Return (Some SyntaxError) s.

(** A context that carries a trace identifier only. *)
Definition tracedCtx : context.Context :=
  context.WithValue context.Background (VString "X-B3-TraceId") (VString "t1").

(** A file name that carries members of its own into the text: an
    "encoding" member and a member the decoder does not know. *)
Definition injecting : string :=
  "x" +:+ dq +:+ "]," +:+ dq +:+ "encoding" +:+ dq +:+ ":" +:+ dq +:+ "console"
  +:+ dq +:+ "," +:+ dq +:+ "k" +:+ dq +:+ ":[" +:+ dq +:+ "y".

(** A Windows path, [C:\temp\new.log]: in a JSON string its backslashes
    start the escapes of a tab and of a line feed. *)
Definition windowsPath : string := "C:\temp\new.log".

(** What the configuration text decodes that path to. *)
Definition decodedWindowsPath : string :=
  "C:" +:+ logger.tab +:+ "emp" +:+ logger.nl +:+ "ew.log".

(** A file system on which one path can be opened, and no other. *)
Definition onlyOpen (path : string) : string -> bool := String.eqb path.

(** A file name that carries a "sampling" member into the text. *)
Definition sampling : string :=
  "x" +:+ dq +:+ "]," +:+ dq +:+ "sampling" +:+ dq +:+ ":{" +:+ dq +:+ "initial" +:+ dq
  +:+ ":0," +:+ dq +:+ "thereafter" +:+ dq +:+ ":100}," +:+ dq +:+ "k" +:+ dq +:+ ":["
  +:+ dq +:+ "y".

(** A file name that is one backslash. *)
Definition bs : string := String json.backslash EmptyString.

(** A process in which a logger is active and no file can be opened. *)
Definition lockedDown : logger.State :=
  logger.setLogger (Some (consoleLogger zapcore.InfoLevel "console"))
                   (logger.initial noneOpen).

(** * Bytes and runes *)

Lemma byte_range c : 0 <= byte c < 256.
Proof.
  unfold byte. pose proof (N_ascii_bounded c). lia.
Qed.

Lemma chr_byte c : chr (byte c) = c.
Proof.
  unfold chr, byte.
  pose proof (N_ascii_bounded c) as Hb.
  replace (Z.land (Z.of_N (N_of_ascii c)) 255) with (Z.of_N (N_of_ascii c)).
  - rewrite N2Z.id. apply ascii_N_embedding.
  - change 255 with (Z.ones 8). rewrite Z.land_ones by lia.
    symmetry. apply Z.mod_small. lia.
Qed.

Lemma byte_chr z : byte (chr z) = Z.land z 255.
Proof.
  unfold chr, byte.
  assert (0 <= Z.land z 255 < 256) as Hr.
  { change 255 with (Z.ones 8). rewrite Z.land_ones by lia.
    apply Z.mod_pos_bound. lia. }
  rewrite N_ascii_embedding by lia. lia.
Qed.

Lemma byte_inj c d : byte c = byte d -> c = d.
Proof. intros H. rewrite <- (chr_byte c), <- (chr_byte d). congruence. Qed.

(** A high part shifted left and a low part below the shift: [lor] is a sum. *)
Lemma lor_shiftl_add hi lo n :
  0 <= n -> 0 <= lo < 2 ^ n -> Z.lor (Z.shiftl hi n) lo = hi * 2 ^ n + lo.
Proof.
  intros Hn Hlo.
  rewrite <- Z.shiftl_mul_pow2 by lia.
  rewrite <- Z.lxor_lor, <- Z.add_nocarry_lxor; auto.
  all: apply Z.bits_inj'; intros m Hm; rewrite Z.land_spec, Z.bits_0.
  all: destruct (Z.lt_ge_cases m n) as [Hlt|Hge].
  all: try (rewrite Z.shiftl_spec_low by lia; reflexivity).
  all: destruct (Z.eq_dec lo 0) as [->|Hne]; [rewrite Z.bits_0; apply andb_false_r|].
  all: rewrite (Z.bits_above_log2 lo m); [apply andb_false_r|lia|].
  all: apply Z.log2_lt_pow2; [lia|]. 
  all: apply Z.lt_le_trans with (2 ^ n); [lia|apply Z.pow_le_mono_r; lia].
Qed.

Ltac zlia := Z.div_mod_to_equations; lia.

Lemma land_low b n : 0 <= n -> Z.land b (Z.ones n) = b mod 2 ^ n.
Proof. intros. apply Z.land_ones. lia. Qed.

Lemma decode2_val s0 b1 :
  Z.lor (Z.shiftl (Z.land s0 utf8.mask2) 6) (Z.land b1 utf8.maskx)
  = (s0 mod 32) * 64 + b1 mod 64.
Proof.
  change utf8.mask2 with (Z.ones 5). change utf8.maskx with (Z.ones 6).
  rewrite !land_low by lia.
  rewrite lor_shiftl_add; [reflexivity|lia|].
  apply Z.mod_pos_bound. lia.
Qed.

Lemma decode3_val s0 b1 b2 :
  Z.lor (Z.lor (Z.shiftl (Z.land s0 utf8.mask3) 12)
               (Z.shiftl (Z.land b1 utf8.maskx) 6))
        (Z.land b2 utf8.maskx)
  = ((s0 mod 16) * 64 + b1 mod 64) * 64 + b2 mod 64.
Proof.
  change utf8.mask3 with (Z.ones 4). change utf8.maskx with (Z.ones 6).
  rewrite !land_low by lia.
  replace (Z.shiftl (s0 mod 2 ^ 4) 12) with (Z.shiftl (Z.shiftl (s0 mod 2 ^ 4) 6) 6)
    by (rewrite Z.shiftl_shiftl by lia; reflexivity).
  rewrite <- Z.shiftl_lor.
  rewrite (lor_shiftl_add (s0 mod 2 ^ 4) (b1 mod 2 ^ 6) 6);
    [|lia|apply Z.mod_pos_bound; lia].
  rewrite lor_shiftl_add; [reflexivity|lia|apply Z.mod_pos_bound; lia].
Qed.

Lemma decode4_val s0 b1 b2 b3 :
  Z.lor (Z.lor (Z.lor (Z.shiftl (Z.land s0 utf8.mask4) 18)
                      (Z.shiftl (Z.land b1 utf8.maskx) 12))
               (Z.shiftl (Z.land b2 utf8.maskx) 6))
        (Z.land b3 utf8.maskx)
  = (((s0 mod 8) * 64 + b1 mod 64) * 64 + b2 mod 64) * 64 + b3 mod 64.
Proof.
  change utf8.mask4 with (Z.ones 3). change utf8.maskx with (Z.ones 6).
  rewrite !land_low by lia.
  replace (Z.shiftl (s0 mod 2 ^ 3) 18)
    with (Z.shiftl (Z.shiftl (Z.shiftl (s0 mod 2 ^ 3) 6) 6) 6)
    by (rewrite !Z.shiftl_shiftl by lia; reflexivity).
  replace (Z.shiftl (b1 mod 2 ^ 6) 12) with (Z.shiftl (Z.shiftl (b1 mod 2 ^ 6) 6) 6)
    by (rewrite Z.shiftl_shiftl by lia; reflexivity).
  rewrite <- !Z.shiftl_lor.
  rewrite (lor_shiftl_add (s0 mod 2 ^ 3) (b1 mod 2 ^ 6) 6);
    [|lia|apply Z.mod_pos_bound; lia].
  rewrite (lor_shiftl_add _ (b2 mod 2 ^ 6) 6);
    [|lia|apply Z.mod_pos_bound; lia].
  rewrite lor_shiftl_add; [reflexivity|lia|apply Z.mod_pos_bound; lia].
Qed.

Lemma first_spec s0 sz lo hi :
  utf8.first s0 = Some (sz, (lo, hi)) ->
  128 <= lo /\ hi <= 191 /\
  ((sz = 2%nat /\ 194 <= s0 <= 223 /\ lo = 128 /\ hi = 191)
   \/ (sz = 3%nat /\ 224 <= s0 <= 239 /\ (s0 = 224 -> lo = 160))
   \/ (sz = 4%nat /\ 240 <= s0 <= 244 /\ (s0 = 240 -> lo = 144))).
Proof.
  unfold utf8.first, utf8.locb, utf8.hicb.
  repeat match goal with
  | |- context [if ?b then _ else _] => destruct b eqn:?
  end; intros [= <- <- <-]; lia.
Qed.

(** What [DecodeRuneInString] gives at a byte above ASCII. *)
Lemma decode_high c rest r w :
  128 <= byte c ->
  utf8.DecodeRuneInString (String c rest) = (r, w) ->
  (r = utf8.RuneError /\ w = 1%nat)
  \/ (exists c1 s2, rest = String c1 s2 /\ w = 2%nat
        /\ 194 <= byte c <= 223 /\ 128 <= byte c1 <= 191
        /\ r = (byte c - 192) * 64 + (byte c1 - 128))
  \/ ((w = 3%nat \/ w = 4%nat) /\ 2048 <= r < 4294967296).
Proof.
  intros Hc. unfold utf8.DecodeRuneInString.
  destruct (byte c <? utf8.RuneSelf) eqn:Hs; [unfold utf8.RuneSelf in Hs; lia|].
  destruct (utf8.first (byte c)) as [[sz [lo hi]]|] eqn:Hf; [|intros [= <- <-]; auto].
  apply first_spec in Hf as (Hlo & Hhi & Hf).
  destruct rest as [|c1 s2]; [intros [= <- <-]; auto|].
  pose proof (byte_range c1) as R1.
  destruct ((byte c1 <? lo) || (hi <? byte c1)) eqn:H1; [intros [= <- <-]; auto|].
  destruct (sz <=? 2)%nat eqn:Hsz.
  { intros [= <- <-]. right; left. exists c1, s2.
    destruct Hf as [(-> & ? & -> & ->)|[(-> & _)|(-> & _)]]; try discriminate.
    rewrite decode2_val. repeat split; try zlia. }
  destruct s2 as [|c2 s3]; [intros [= <- <-]; auto|].
  pose proof (byte_range c2) as R2.
  unfold utf8.cont, utf8.locb, utf8.hicb.
  destruct (negb _) eqn:H2; [intros [= <- <-]; auto|].
  destruct (sz <=? 3)%nat eqn:Hsz3.
  { intros [= <- <-]. right; right. split; [auto|].
    destruct Hf as [(-> & _)|[(-> & ? & ?)|(-> & _)]]; try discriminate.
    rewrite decode3_val. zlia. }
  destruct s3 as [|c3 s4]; [intros [= <- <-]; auto|].
  pose proof (byte_range c3) as R3.
  destruct (negb _) eqn:H3 in |- *; [intros [= <- <-]; auto|].
  intros [= <- <-]. right; right. split; [auto|].
  destruct Hf as [(-> & _)|[(-> & _)|(-> & ? & ?)]]; try discriminate.
  rewrite decode4_val. zlia.
Qed.

Lemma decode_ascii c rest :
  byte c < 128 -> utf8.DecodeRuneInString (String c rest) = (byte c, 1%nat).
Proof.
  intros H. unfold utf8.DecodeRuneInString, utf8.RuneSelf.
  destruct (byte c <? 128) eqn:E; [reflexivity|lia].
Qed.

Lemma chr_lor_high t x :
  Z.testbit t 7 = true -> 128 <= byte (chr (Z.lor t x)).
Proof.
  intros Ht. rewrite byte_chr.
  assert (0 <= Z.land (Z.lor t x) 255 < 256) as Hr.
  { change 255 with (Z.ones 8). rewrite Z.land_ones by lia.
    apply Z.mod_pos_bound. lia. }
  assert (Z.testbit (Z.land (Z.lor t x) 255) 7 = true) as Hb.
  { rewrite Z.land_spec, Z.lor_spec, Ht. reflexivity. }
  apply Z.testbit_true in Hb; [|lia].
  change (2 ^ 7) with 128 in Hb. zlia.
Qed.

(** The first byte of a rune above ASCII is above ASCII. *)
Lemma encode_high r :
  128 <= r < 4294967296 ->
  exists h tl, utf8.EncodeRune r = String h tl /\ 128 <= byte h.
Proof.
  intros Hr. unfold utf8.EncodeRune.
  rewrite Z.mod_small by lia.
  destruct (r <=? 127) eqn:E1; [lia|].
  destruct (r <=? 2047) eqn:E2.
  { eexists _, _. split; [reflexivity|]. apply chr_lor_high. reflexivity. }
  destruct (_ || _) eqn:E3.
  { eexists _, _. split; [reflexivity|]. vm_compute. discriminate. }
  destruct (r <=? 65535) eqn:E4.
  { eexists _, _. split; [reflexivity|]. apply chr_lor_high. reflexivity. }
  eexists _, _. split; [reflexivity|]. apply chr_lor_high. reflexivity.
Qed.

Lemma MapFrom_skip f k s : gostrings.MapFrom f k s = gostrings.Map f (json.skipBytes k s).
Proof.
  revert k. induction s as [|c s IH]; intros [|k]; try reflexivity.
  simpl. apply IH.
Qed.

Lemma Map_cons f c rest :
  gostrings.Map f (String c rest) =
    (let '(r, w) := utf8.DecodeRuneInString (String c rest) in
     (if 0 <=? f r then utf8.EncodeRune (f r) else EmptyString)
       +:+ gostrings.Map f (json.skipBytes (w - 1) rest)).
Proof.
  unfold gostrings.Map at 1. cbn [gostrings.MapFrom].
  destruct (utf8.DecodeRuneInString (String c rest)) as [r w].
  rewrite MapFrom_skip. reflexivity.
Qed.

Lemma upperByte_ascii c :
  byte c < 128 ->
  utf8.EncodeRune (unicode.ToUpper (byte c)) = String (gostrings.upperByte c) EmptyString
  /\ 0 <= unicode.ToUpper (byte c).
Proof.
  intros Hc. pose proof (byte_range c) as R.
  unfold unicode.ToUpper, unicode.MaxASCII, gostrings.upperByte, utf8.EncodeRune.
  destruct (byte c <=? 127) eqn:E; [|lia].
  destruct ((97 <=? byte c) && (byte c <=? 122)) eqn:E2.
  - rewrite Z.mod_small by lia.
    destruct (byte c - (97 - 65) <=? 127) eqn:E3; [|lia]. split; [reflexivity|lia].
  - rewrite Z.mod_small by lia. rewrite E. rewrite chr_byte. split; [reflexivity|lia].
Qed.

Lemma upperByte_high c : 128 <= byte c -> gostrings.upperByte c = c.
Proof.
  intros H. unfold gostrings.upperByte.
  destruct ((97 <=? byte c) && (byte c <=? 122)) eqn:E; [lia|reflexivity].
Qed.

Lemma decode_two c c1 r2 :
  194 <= byte c <= 223 -> 128 <= byte c1 <= 191 ->
  utf8.DecodeRuneInString (String c (String c1 r2))
  = ((byte c - 192) * 64 + (byte c1 - 128), 2%nat).
Proof.
  intros Hc Hc1. unfold utf8.DecodeRuneInString, utf8.RuneSelf.
  destruct (byte c <? 128) eqn:E; [lia|].
  unfold utf8.first, utf8.locb, utf8.hicb.
  destruct ((194 <=? byte c) && (byte c <=? 223)) eqn:E1; [|lia].
  destruct ((byte c1 <? 128) || (191 <? byte c1)) eqn:E2; [lia|].
  cbn [Nat.leb]. rewrite decode2_val. f_equal. zlia.
Qed.

(** The first byte [gostrings.Map unicode.ToUpper] writes, by the bytes it reads. *)
Lemma Map_upper_head c rest :
  (byte c < 128 /\
     gostrings.Map unicode.ToUpper (String c rest)
     = String (gostrings.upperByte c) (gostrings.Map unicode.ToUpper rest))
  \/ (exists c1 r2, rest = String c1 r2 /\ byte c = 196 /\ byte c1 = 177 /\
        gostrings.Map unicode.ToUpper (String c rest) = String "I" (gostrings.Map unicode.ToUpper r2))
  \/ (exists c1 r2, rest = String c1 r2 /\ byte c = 197 /\ byte c1 = 191 /\
        gostrings.Map unicode.ToUpper (String c rest) = String "S" (gostrings.Map unicode.ToUpper r2))
  \/ (128 <= byte c /\
      (forall c1 r2, rest = String c1 r2 ->
         ~ (byte c = 196 /\ byte c1 = 177) /\ ~ (byte c = 197 /\ byte c1 = 191)) /\
      exists h tl, gostrings.Map unicode.ToUpper (String c rest) = String h tl /\ 128 <= byte h).
Proof.
  rewrite Map_cons.
  destruct (Z.lt_ge_cases (byte c) 128) as [Hlo|Hhi].
  { left. split; [assumption|].
    rewrite decode_ascii by assumption.
    destruct (upperByte_ascii c Hlo) as [-> Hpos].
    destruct (0 <=? _) eqn:E; [reflexivity|lia]. }
  right.
  destruct (utf8.DecodeRuneInString (String c rest)) as [r w] eqn:Hd.
  assert (Hother : 128 <= r < 4294967296 -> r <> 305 -> r <> 383 ->
            (forall c1 r2, rest = String c1 r2 ->
               ~ (byte c = 196 /\ byte c1 = 177) /\ ~ (byte c = 197 /\ byte c1 = 191)) /\
            exists h tl,
              (if 0 <=? unicode.ToUpper r then utf8.EncodeRune (unicode.ToUpper r)
               else EmptyString) +:+ gostrings.Map unicode.ToUpper (json.skipBytes (w - 1) rest)
              = String h tl /\ 128 <= byte h).
  { intros Hr N1 N2. split.
    - intros c1 r2 ->.
      split; intros [E1 E2]; rewrite decode_two in Hd by lia;
        injection Hd as Hd _; lia.
    - unfold unicode.ToUpper, unicode.MaxASCII, unicode.toUpperTable.
      destruct (r <=? 127) eqn:E1; [lia|].
      destruct (r =? 305) eqn:E2; [lia|]. destruct (r =? 383) eqn:E3; [lia|].
      destruct (0 <=? r) eqn:E4; [|lia].
      destruct (encode_high r Hr) as (h & tl & -> & Hh).
      eexists _, _. split; [reflexivity|assumption]. }
  pose proof Hd as Hd'. apply decode_high in Hd'; [|assumption].
  destruct Hd' as [[-> ->]|[(c1 & s2 & -> & -> & Hc & Hc1 & Hr)|[Hw Hr]]].
  - right; right. split; [assumption|]. apply Hother; unfold utf8.RuneError; lia.
  - destruct (Z.eq_dec r 305) as [E|N1]; [|destruct (Z.eq_dec r 383) as [E|N2]].
    + left. exists c1, s2. repeat split; try lia. subst r. rewrite E. reflexivity.
    + right; left. exists c1, s2. repeat split; try lia. subst r. rewrite E. reflexivity.
    + right; right. split; [assumption|]. apply Hother; lia.
  - right; right. split; [assumption|]. apply Hother; lia.
Qed.

Lemma spells_spec name :
  upperWord name = true ->
  forall level, gostrings.Map unicode.ToUpper level = name <-> spells name level = true.
Proof.
  induction name as [|C name IH]; intros Hw level.
  - destruct level as [|c rest]; [split; reflexivity|].
    split; [|discriminate].
    destruct (Map_upper_head c rest)
      as [[_ ->]|[(?&?&_&_&_&->)|[(?&?&_&_&_&->)|(_&_&?&?&->&_)]]]; discriminate.
  - cbn [upperWord] in Hw. apply andb_true_iff in Hw as [HC Hw].
    unfold isUpperLetter in HC.
    destruct level as [|c rest]; [split; discriminate|].
    cbn [spells].
    destruct (Map_upper_head c rest)
      as [[Hc ->]|[(c1&r2&->&Hc&Hc1&->)|[(c1&r2&->&Hc&Hc1&->)|(Hc&Hn&h&tl&->&Hh)]]].
    + destruct (Ascii.eqb_spec (gostrings.upperByte c) C) as [->|Hne].
      * rewrite <- IH by assumption. split; [intros [= ->]|intros ->]; reflexivity.
      * split.
        -- intros [= E _]. contradiction.
        -- destruct rest as [|c1 r2]; [discriminate|].
           destruct (_ || _) eqn:E; [lia|discriminate].
    + rewrite upperByte_high by lia.
      destruct (Ascii.eqb_spec c C) as [->|Hne]; [lia|].
      destruct (Ascii.eqb_spec C "I") as [->|HI].
      * replace ((byte c =? 196)) with true by lia.
        replace ((byte c1 =? 177)) with true by lia. cbn [andb orb].
        rewrite <- IH by assumption. split; [intros [= ->]|intros ->]; reflexivity.
      * cbn [andb orb].
        replace ((byte c =? 197)) with false by lia. rewrite andb_false_r. cbn [andb].
        split; [intros [= E _]; congruence|discriminate].
    + rewrite upperByte_high by lia.
      destruct (Ascii.eqb_spec c C) as [->|Hne]; [lia|].
      destruct (Ascii.eqb_spec C "S") as [->|HS].
      * replace ((byte c =? 197)) with true by lia.
        replace ((byte c1 =? 191)) with true by lia.
        rewrite orb_true_r.
        rewrite <- IH by assumption. split; [intros [= ->]|intros ->]; reflexivity.
      * replace ((byte c =? 196)) with false by lia. rewrite andb_false_r.
        cbn [andb orb].
        split; [intros [= E _]; congruence|discriminate].
    + rewrite upperByte_high by lia.
      destruct (Ascii.eqb_spec c C) as [->|Hne]; [lia|].
      split.
      * intros [= -> _]. lia.
      * destruct rest as [|c1 r2]; [discriminate|].
        destruct (Hn c1 r2 eq_refl) as [N1 N2].
        destruct (_ || _) eqn:E; [|discriminate].
        exfalso. lia.
Qed.

(** * Upper case and the level *)

Lemma ToUpper_Map s : gostrings.ToUpper s = gostrings.Map unicode.ToUpper s.
Proof.
  unfold gostrings.ToUpper.
  destruct (gostrings.isASCII s) eqn:Ha; [|reflexivity].
  induction s as [|c s IH]; [reflexivity|].
  cbn [gostrings.isASCII] in Ha. apply andb_true_iff in Ha as [Hc Hs].
  unfold utf8.RuneSelf in Hc.
  rewrite Map_cons, decode_ascii by lia.
  destruct (upperByte_ascii c) as [-> Hpos]; [lia|].
  destruct (0 <=? _) eqn:E; [|lia].
  cbn [gostrings.mapBytes]. rewrite IH by assumption. reflexivity.
Qed.

Lemma eqb_spells name level :
  upperWord name = true ->
  String.eqb (gostrings.ToUpper level) name = spells name level.
Proof.
  intros Hw. rewrite ToUpper_Map.
  destruct (String.eqb_spec (gostrings.Map unicode.ToUpper level) name) as [E|N].
  - symmetry. apply spells_spec; assumption.
  - destruct (spells name level) eqn:Hs; [|reflexivity].
    apply spells_spec in Hs; [contradiction|assumption].
Qed.

Lemma resolveLevel_cases level :
  logger.resolveLevel level = "DEBUG" \/ logger.resolveLevel level = "INFO"
  \/ logger.resolveLevel level = "WARN" \/ logger.resolveLevel level = "ERROR".
Proof.
  unfold logger.resolveLevel.
  repeat match goal with |- context [if ?b then _ else _] => destruct b end; auto.
Qed.

Lemma resolveLevel_spells level :
  logger.resolveLevel level =
    if spells "INFO" level then "INFO"
    else if spells "WARN" level then "WARN"
    else if spells "ERROR" level then "ERROR"
    else "DEBUG".
Proof.
  unfold logger.resolveLevel.
  rewrite <- !eqb_spells by reflexivity.
  destruct (String.eqb_spec (gostrings.ToUpper level) "DEBUG") as [->|]; reflexivity.
Qed.

Lemma lowerByte_upperByte b c :
  isLowerLetter c = true ->
  gostrings.lowerByte b = gostrings.lowerByte c ->
  gostrings.upperByte b = gostrings.upperByte c.
Proof.
  unfold isLowerLetter, gostrings.lowerByte, gostrings.upperByte.
  intros Hc. pose proof (byte_range b) as Rb. pose proof (byte_range c) as Rc.
  destruct ((65 <=? byte c) && (byte c <=? 90)) eqn:E1; [lia|].
  rewrite Hc.
  destruct ((65 <=? byte b) && (byte b <=? 90)) eqn:E2.
  - intros <-. rewrite byte_chr.
    destruct ((97 <=? byte b) && (byte b <=? 122)) eqn:E3; [lia|].
    assert (Z.land (byte b + (97 - 65)) 255 = byte b + 32) as ->.
    { change 255 with (Z.ones 8). rewrite Z.land_ones by lia.
      rewrite Z.mod_small by lia. lia. }
    replace (byte b + 32 - (97 - 65)) with (byte b) by lia.
    symmetry. apply chr_byte.
  - intros ->. rewrite ?Hc. reflexivity.
Qed.

Lemma caseVariation_spells name :
  lowerWord name = true ->
  forall level, caseVariation name level = true ->
    spells (gostrings.mapBytes gostrings.upperByte name) level = true.
Proof.
  induction name as [|c name IH]; intros Hw [|b level] Hv; try discriminate.
  - reflexivity.
  - cbn [lowerWord] in Hw. apply andb_true_iff in Hw as [Hc Hw].
    cbn [caseVariation] in Hv. apply andb_true_iff in Hv as [Hb Hv].
    apply Ascii.eqb_eq in Hb.
    cbn [gostrings.mapBytes spells].
    rewrite (lowerByte_upperByte b c Hc Hb), Ascii.eqb_refl.
    apply IH; assumption.
Qed.

Lemma caseVariation_resolves name level :
  In name ["debug"; "info"; "warn"; "error"]%string ->
  caseVariation name level = true ->
  logger.resolveLevel level = gostrings.ToUpper name.
Proof.
  intros Hin Hv.
  assert (gostrings.ToUpper level = gostrings.ToUpper name) as E.
  { rewrite ToUpper_Map. 
    cbn [In] in Hin.
    destruct Hin as [<-|[<-|[<-|[<-|[]]]]];
      (apply spells_spec; [reflexivity|]);
      (apply caseVariation_spells in Hv; [exact Hv|reflexivity]). }
  unfold logger.resolveLevel. rewrite E.
  cbn [In] in Hin.
  destruct Hin as [<-|[<-|[<-|[<-|[]]]]]; reflexivity.
Qed.

(** * The shape of InitLogger *)

Lemma check_action tn cs log lvl msg fields :
  snd (fst (zap.check tn cs log lvl msg fields))
  = match lvl with
    | zapcore.PanicLevel => zap.WriteThenPanic
    | zapcore.FatalLevel => zap.WriteThenFatal
    | zapcore.DPanicLevel =>
      if zap.Development (zap.core log) then zap.WriteThenPanic else zap.WriteThenNoop
    | _ => zap.WriteThenNoop
    end.
Proof.
  unfold zap.check.
  destruct (zap.Level (zap.core log)) as [l|]; [|reflexivity].
  destruct (zapcore.Enabled l lvl); [|reflexivity].
  destruct (zap.sampler log) as [sp|]; [|reflexivity].
  destruct (zapcore.sample _ _ _ _ _ _). reflexivity.
Qed.

Lemma keeps_number_one first thereafter :
  0 <= first -> 0 <= thereafter ->
  negb ((first <? 1) && ((thereafter =? 0) || negb ((1 - first) mod thereafter =? 0)))
  = negb (first =? 0) || (thereafter =? 1).
Proof.
  intros Hf Ht. destruct (Z.eqb_spec first 0) as [->|Hn].
  - change (1 - 0) with 1. change (0 <? 1) with true. cbn [andb negb orb].
    destruct (Z.eqb_spec thereafter 0) as [->|H0]; [reflexivity|].
    destruct (Z.eqb_spec thereafter 1) as [->|H1]; [reflexivity|].
    rewrite Z.mod_small by lia. reflexivity.
  - destruct (first <? 1) eqn:E; [lia|]. reflexivity.
Qed.

(** A sampler that has counted nothing counts its first entry as number
    one, whatever the clock says. *)
Lemma sample_first first thereafter tn lvl msg :
  0 <= first -> 0 <= thereafter ->
  fst (zapcore.sample first thereafter tn lvl msg ∅)
  = negb (first =? 0) || (thereafter =? 1).
Proof.
  intros Hf Ht. unfold zapcore.sample. rewrite lookup_empty.
  cbn [default zapcore.IncCheckReset].
  assert (zapcore.wrapUint64 (0 + 1) = 1) as -> by reflexivity.
  destruct (tn <? 0); cbn [fst]; apply keeps_number_one; assumption.
Qed.

Lemma check_first tn log lvl msg fields :
  fst (fst (zap.check tn ∅ log lvl msg fields))
  = fst (fst (zap.check 0 ∅ log lvl msg fields)).
Proof.
  unfold zap.check.
  destruct (zap.Level (zap.core log)) as [l|]; [|reflexivity].
  destruct (zapcore.Enabled l lvl); [|reflexivity].
  destruct (zap.sampler log) as [sp|]; [|reflexivity].
  unfold zapcore.sample. rewrite lookup_empty.
  cbn [default zapcore.IncCheckReset].
  destruct (tn <? 0); reflexivity.
Qed.

Lemma countersOf_new lg (s : logger.State) :
  logger.countersOf (zap.WithOptions lg [zap.AddCallerSkip 1])
    (logger.setLogger (Some lg) (logger.setCounters lg ∅ s)) = ∅.
Proof.
  unfold logger.countersOf, logger.setCounters.
  cbn [zap.WithOptions foldl zap.AddCallerSkip zap.sampler].
  destruct (zap.sampler lg) as [sp|]; [|reflexivity].
  cbn [logger.setLogger logger.samplers]. rewrite lookup_insert_eq. reflexivity.
Qed.

Lemma report_installed init format a lg s :
  logger.bind (logger.InfofWith init format a) (fun _ => logger.ret (@None error))
    (logger.setLogger (Some lg) (logger.setCounters lg ∅ s))
  = logger.Return None (logger.installed lg (fmt.Sprintf format a) s).
Proof.
  unfold logger.InfofWith, logger.getLoggerWith, logger.bind, logger.ret.
  assert (logger.defaultLogger (logger.setLogger (Some lg) (logger.setCounters lg ∅ s))
          = Some lg) as Hd by reflexivity.
  rewrite ?Hd. cbv beta iota. rewrite ?Hd. cbv beta iota.
  unfold logger.logAt. rewrite countersOf_new.
  assert (logger.now (logger.setLogger (Some lg) (logger.setCounters lg ∅ s))
          = logger.now s) as ->.
  { unfold logger.setCounters. destruct (zap.sampler lg); reflexivity. }
  generalize (fmt.Sprintf format a). intros msg.
  pose proof (check_action (logger.now s) ∅ (zap.WithOptions lg [zap.AddCallerSkip 1])
                zapcore.InfoLevel msg []) as Ha.
  pose proof (check_first (logger.now s) (zap.WithOptions lg [zap.AddCallerSkip 1])
                zapcore.InfoLevel msg []) as Hf.
  unfold logger.installed, logger.reported, logger.counted.
  rewrite <- Hf.
  destruct (zap.check _ _ _ _ _ _) as [[ent action] cs].
  cbn [fst snd] in *. subst action. reflexivity.
Qed.

Lemma InitLoggerWith_spec init isSave f level enc s :
  logger.InitLoggerWith init isSave f level enc s =
    match zap.Unmarshal (logger.configText isSave (logger.resolveFilename isSave f) level enc)
                        zap.zeroConfig with
    | inr e => logger.Return (Some e) (logger.setFlags logger.initFlags s)
    | inl cfg =>
      match zap.Build (logger.opens s) (logger.freshSampler s)
                      (logger.setEncodeTime (logger.encodeTimeOf isSave) cfg) with
      | inr e =>
        logger.Return (Some e) (logger.setLogger None (logger.setFlags logger.initFlags s))
      | inl lg =>
        logger.Return None
          (logger.installed lg (logger.summary isSave f level enc)
             (logger.setFlags logger.initFlags s))
      end
    end.
Proof.
  unfold logger.InitLoggerWith, logger.bind, logger.SetFlags, logger.ret.
  destruct (zap.Unmarshal _ _) as [cfg|e]; [|reflexivity].
  change (logger.opens (logger.setFlags _ s)) with (logger.opens s).
  change (logger.freshSampler (logger.setFlags _ s)) with (logger.freshSampler s).
  unfold logger.encodeTimeOf.
  destruct (zap.Build _ _ _) as [lg|e]; [|reflexivity].
  unfold logger.summary.
  destruct isSave; apply report_installed.
Qed.

Lemma InitLogger_spec isSave f level enc s :
  logger.InitLogger isSave f level enc s =
    match zap.Unmarshal (logger.configText isSave (logger.resolveFilename isSave f) level enc)
                        zap.zeroConfig with
    | inr e => logger.Return (Some e) (logger.setFlags logger.initFlags s)
    | inl cfg =>
      match zap.Build (logger.opens s) (logger.freshSampler s)
                      (logger.setEncodeTime (logger.encodeTimeOf isSave) cfg) with
      | inr e =>
        logger.Return (Some e) (logger.setLogger None (logger.setFlags logger.initFlags s))
      | inl lg =>
        logger.Return None
          (logger.installed lg (logger.summary isSave f level enc)
             (logger.setFlags logger.initFlags s))
      end
    end.
Proof. apply InitLoggerWith_spec. Qed.

(** The definition of [InitLogger] satisfies the equation of the source,
    in which [Infof] goes through [getLogger] and so through [InitLogger]. *)
Lemma InitLogger_unfold isSave f level enc s :
  logger.InitLogger isSave f level enc s
  = logger.InitLoggerWith logger.InitLogger isSave f level enc s.
Proof. rewrite InitLogger_spec, InitLoggerWith_spec. reflexivity. Qed.

Lemma Infof_InfofWith format a s :
  logger.Infof format a s = logger.InfofWith logger.InitLogger format a s.
Proof. reflexivity. Qed.

(** Without a sampler nothing but the log and [defaultLogger] changes. *)
Lemma installed_plain lg msg s :
  zap.sampler lg = None ->
  logger.installed lg msg s
  = logger.addWritten (logger.reported lg msg) (logger.setLogger (Some lg) s).
Proof.
  intros H. unfold logger.installed, logger.setCounters. rewrite H. reflexivity.
Qed.

Lemma installed_logger lg msg s :
  logger.defaultLogger (logger.installed lg msg s) = Some lg.
Proof.
  unfold logger.installed, logger.setCounters.
  destruct (zap.sampler lg); reflexivity.
Qed.

Lemma installed_written lg msg s :
  logger.written (logger.installed lg msg s) = logger.written s ++ logger.reported lg msg.
Proof.
  unfold logger.installed, logger.setCounters.
  destruct (zap.sampler lg); reflexivity.
Qed.

Lemma Build_inl o n cfg lg :
  zap.Build o n cfg = inl lg ->
  lg = {| zap.core := cfg;
          zap.sampler :=
            match zap.Sampling cfg with
            | None => None
            | Some sc =>
              Some {| zap.counts := n;
                      zap.first := zapcore.wrapUint64 (zap.Initial sc);
                      zap.thereafter := zapcore.wrapUint64 (zap.Thereafter sc) |}
            end;
          zap.callerSkip := 0; zap.context := zap.initialFields cfg |}
  /\ exists l, zap.Level cfg = Some l.
Proof.
  unfold zap.Build.
  repeat match goal with
  | |- context [if ?x then _ else _] => destruct x eqn:?
  | |- context [match ?x with _ => _ end] => destruct x eqn:?
  end; intros [= <-]; eauto.
Qed.

Lemma wrapUint64_range x : 0 <= zapcore.wrapUint64 x.
Proof. unfold zapcore.wrapUint64. zlia. Qed.

(** What the logger built from [cfg] writes for the summary. *)
Lemma reported_built n cfg l msg :
  zap.Level cfg = Some l ->
  logger.reported
    {| zap.core := cfg;
       zap.sampler :=
         match zap.Sampling cfg with
         | None => None
         | Some sc =>
           Some {| zap.counts := n;
                   zap.first := zapcore.wrapUint64 (zap.Initial sc);
                   zap.thereafter := zapcore.wrapUint64 (zap.Thereafter sc) |}
         end;
       zap.callerSkip := 0; zap.context := zap.initialFields cfg |} msg
  = if zapcore.Enabled l zapcore.InfoLevel && keepsFirst cfg then
      [ {| zap.entLevel := zapcore.InfoLevel; zap.entMessage := msg;
           zap.entFields := zap.initialFields cfg; zap.entCallerSkip := 1;
           zap.entCore := cfg |} ]
    else [].
Proof.
  intros Hl. unfold logger.reported, zap.check, keepsFirst.
  cbn [zap.WithOptions foldl zap.AddCallerSkip zap.core zap.sampler zap.callerSkip
       zap.context].
  rewrite Hl, app_nil_r.
  destruct (zapcore.Enabled l zapcore.InfoLevel); [|reflexivity].
  destruct (zap.Sampling cfg) as [sc|]; [|reflexivity].
  cbn [zap.first zap.thereafter andb].
  pose proof (sample_first (zapcore.wrapUint64 (zap.Initial sc))
                (zapcore.wrapUint64 (zap.Thereafter sc)) 0 zapcore.InfoLevel msg
                (wrapUint64_range _) (wrapUint64_range _)) as H.
  destruct (zapcore.sample _ _ _ _ _ _) as [keep cs]. cbn [fst] in *. subst keep.
  destruct (negb _ || _); reflexivity.
Qed.

(** * The configuration text *)

Lemma resolveEncoding_cases isSave enc :
  logger.resolveEncoding isSave enc = "json" \/ logger.resolveEncoding isSave enc = "console".
Proof.
  unfold logger.resolveEncoding. destruct isSave; [auto|].
  destruct enc as [|e ?]; [auto|]. destruct (String.eqb e "json"); auto.
Qed.

Lemma level_of_resolved level :
  exists l, zapcore.unmarshalText (logger.resolveLevel level) = Some l
    /\ In l [zapcore.DebugLevel; zapcore.InfoLevel; zapcore.WarnLevel; zapcore.ErrorLevel].
Proof.
  destruct (resolveLevel_cases level) as [->|[->|[->| ->]]];
    eexists; (split; [reflexivity|cbn; auto]).
Qed.

Lemma Unmarshal_console f level enc :
  zap.Unmarshal (logger.configText false f level enc) zap.zeroConfig
  = inl (decoded (zapcore.unmarshalText (logger.resolveLevel level))
                 (logger.resolveEncoding false enc) ["stdout"]).
Proof.
  unfold logger.configText.
  destruct (resolveLevel_cases level) as [->|[->|[->| ->]]];
    destruct (resolveEncoding_cases false enc) as [->| ->];
    vm_compute; reflexivity.
Qed.

Lemma fileText_split level enc f :
  logger.configText true f level enc
  = logger.filePre (logger.resolveLevel level) +:+ (f +:+ (logger.fileMid +:+ (f +:+ logger.filePost))).
Proof.
  unfold logger.configText.
  destruct (resolveLevel_cases level) as [->|[->|[->| ->]]]; reflexivity.
Qed.

Lemma lexFrom_app st a b :
  json.lexFrom st (a +:+ b) =
    match json.lexRun st a with
    | None => None
    | Some (st', out) =>
      match json.lexFrom st' b with
      | None => None
      | Some toks => Some (out ++ toks)
      end
    end.
Proof.
  revert st. induction a as [|c a IH]; intros st.
  - change ("" +:+ b) with b. cbn [json.lexRun].
    destruct (json.lexFrom st b); reflexivity.
  - change (String c a +:+ b) with (String c (a +:+ b)).
    cbn [json.lexFrom json.lexRun].
    destruct (json.lexStep st c) as [[st' out]|]; [|reflexivity].
    rewrite IH. destruct (json.lexRun st' a) as [[st'' toks]|]; [|reflexivity].
    destruct (json.lexFrom st'' b); [|reflexivity].
    rewrite app_assoc. reflexivity.
Qed.

Lemma append_assoc (a b c : string) : (a +:+ b) +:+ c = a +:+ (b +:+ c).
Proof.
  induction a as [|x a IH]; [reflexivity|].
  change (String x ((a +:+ b) +:+ c) = String x (a +:+ (b +:+ c))).
  rewrite IH. reflexivity.
Qed.

Lemma append_nil (a : string) : a +:+ "" = a.
Proof.
  induction a as [|x a IH]; [reflexivity|].
  change (String x (a +:+ "") = String x a). rewrite IH. reflexivity.
Qed.

Lemma lexRun_plain f acc :
  plain f = true -> json.lexRun (json.LString acc) f = Some (json.LString (acc +:+ f), []).
Proof.
  revert acc. induction f as [|c f IH]; intros acc Hp.
  - cbn [json.lexRun]. rewrite append_nil. reflexivity.
  - cbn [plain] in Hp.
    apply andb_true_iff in Hp as [Hp Hf]. apply andb_true_iff in Hp as [Hp Hb].
    apply andb_true_iff in Hp as [Hr Hq].
    apply negb_true_iff in Hq, Hb.
    cbn [json.lexRun json.lexStep]. rewrite Hq, Hb.
    destruct (byte c <? 32) eqn:E; [lia|].
    rewrite IH by assumption. unfold json.snoc. rewrite append_assoc. reflexivity.
Qed.

Lemma unquote_plain f : plain f = true -> json.unquote f = f.
Proof.
  unfold json.unquote. induction f as [|c f IH]; intros Hp; [reflexivity|].
  cbn [plain] in Hp.
  apply andb_true_iff in Hp as [Hp Hf]. apply andb_true_iff in Hp as [Hp Hb].
  apply andb_true_iff in Hp as [Hr Hq].
  apply negb_true_iff in Hb.
  cbn [json.unquoteFrom]. rewrite Hb.
  unfold utf8.RuneSelf. destruct (byte c <? 128) eqn:E; [|lia].
  rewrite IH by assumption. reflexivity.
Qed.

Lemma lex_file level enc f :
  plain f = true ->
  json.lex (logger.configText true f level enc)
  = Some [json.TLBrace; json.TString "level"; json.TColon;
          json.TString (logger.resolveLevel level); json.TComma;
          json.TString "encoding"; json.TColon; json.TString "json"; json.TComma;
          json.TString "outputPaths"; json.TColon; json.TLBrack; json.TString f;
          json.TRBrack; json.TComma;
          json.TString "errorOutputPaths"; json.TColon; json.TLBrack; json.TString f;
          json.TRBrack; json.TRBrace].
Proof.
  intros Hp. rewrite fileText_split. unfold json.lex.
  rewrite lexFrom_app.
  assert (json.lexRun json.LValue (logger.filePre (logger.resolveLevel level))
          = Some (json.LString "",
                  [json.TLBrace; json.TString "level"; json.TColon;
                   json.TString (logger.resolveLevel level); json.TComma;
                   json.TString "encoding"; json.TColon; json.TString "json";
                   json.TComma; json.TString "outputPaths"; json.TColon;
                   json.TLBrack])) as ->.
  { destruct (resolveLevel_cases level) as [->|[->|[->| ->]]]; vm_compute; reflexivity. }
  rewrite lexFrom_app, lexRun_plain by assumption.
  rewrite lexFrom_app.
  assert (forall acc, json.lexRun (json.LString acc) logger.fileMid
          = Some (json.LString "",
                  [json.TString acc; json.TRBrack; json.TComma;
                   json.TString "errorOutputPaths"; json.TColon; json.TLBrack])) as ->.
  { intros acc. vm_compute. reflexivity. }
  rewrite lexFrom_app, lexRun_plain by assumption.
  assert (forall acc, json.lexFrom (json.LString acc) logger.filePost
          = Some [json.TString acc; json.TRBrack; json.TRBrace]) as ->.
  { intros acc. vm_compute. reflexivity. }
  reflexivity.
Qed.

Lemma Unmarshal_file level enc f :
  plain f = true ->
  zap.Unmarshal (logger.configText true f level enc) zap.zeroConfig
  = inl (decoded (zapcore.unmarshalText (logger.resolveLevel level)) "json" [f]).
Proof.
  intros Hp. unfold zap.Unmarshal, json.parse. rewrite lex_file by assumption.
  cbn -[json.unquote logger.resolveLevel zap.storeMembers].
  rewrite !(unquote_plain f) by assumption.
  destruct (resolveLevel_cases level) as [->|[->|[->| ->]]]; vm_compute; reflexivity.
Qed.

(** * Console and file initialisation *)

Lemma Build_opened o n l enc paths t :
  zap.registered enc = true ->
  forallb (zap.sinkOpens o) paths = true ->
  zap.Build o n (logger.setEncodeTime t (decoded (Some l) enc paths))
  = inl {| zap.core := logger.setEncodeTime t (decoded (Some l) enc paths);
           zap.sampler := None; zap.callerSkip := 0; zap.context := [] |}.
Proof.
  intros Hr Ho. unfold zap.Build.
  assert (zap.missingEncodeTime
            (zap.EncoderConfig (logger.setEncodeTime t (decoded (Some l) enc paths)))
          = false) as -> by reflexivity.
  assert (zap.Encoding (logger.setEncodeTime t (decoded (Some l) enc paths)) = enc)
    as -> by reflexivity.
  rewrite Hr. cbn [negb].
  assert (zap.OutputPaths (logger.setEncodeTime t (decoded (Some l) enc paths)) = paths)
    as -> by reflexivity.
  assert (zap.ErrorOutputPaths (logger.setEncodeTime t (decoded (Some l) enc paths))
          = paths) as -> by reflexivity.
  assert (find (fun p => negb (zap.sinkOpens o p)) paths = None) as ->.
  { induction paths as [|p ps IH]; [reflexivity|].
    cbn [forallb] in Ho. apply andb_true_iff in Ho as [Hp Hps].
    cbn [find]. rewrite Hp. cbn [negb]. apply IH, Hps. }
  reflexivity.
Qed.

Lemma InitLogger_console f level enc s :
  exists l,
    zapcore.unmarshalText (logger.resolveLevel level) = Some l /\
    logger.InitLogger false f level enc s =
      logger.Return None
        (logger.addWritten
           (logger.reported (consoleLogger l (logger.resolveEncoding false enc))
                            (logger.summary false f level enc))
           (logger.setLogger
              (Some (consoleLogger l (logger.resolveEncoding false enc)))
              (logger.setFlags logger.initFlags s))).
Proof.
  destruct (level_of_resolved level) as (l & Hl & _).
  exists l. split; [assumption|].
  rewrite InitLogger_spec. cbn [logger.resolveFilename andb].
  rewrite Unmarshal_console, Hl. unfold logger.encodeTimeOf.
  rewrite Build_opened; [|  |reflexivity].
  - rewrite installed_plain by reflexivity. reflexivity.
  - destruct (resolveEncoding_cases false enc) as [-> | ->]; reflexivity.
Qed.

(** * C1: the level *)

(** C1, the claim at "info" spelt with U+0131: no case variation of the four
    names, and yet it resolves to INFO, not to DEBUG. *)
Lemma C1_counterexample :
  caseVariation "debug" dotlessInfo = false
  /\ caseVariation "info" dotlessInfo = false
  /\ caseVariation "warn" dotlessInfo = false
  /\ caseVariation "error" dotlessInfo = false
  /\ logger.resolveLevel dotlessInfo = "INFO"
  /\ logger.resolveLevel dotlessInfo <> "DEBUG".
Proof. vm_compute. repeat split; discriminate. Qed.

Lemma same_text_same_result isSave f level level' enc s :
  logger.resolveLevel level = logger.resolveLevel level' ->
  logger.returned (logger.InitLogger isSave f level enc s)
  = logger.returned (logger.InitLogger isSave f level' enc s)
  /\ logger.defaultLogger (logger.stateOf (logger.InitLogger isSave f level enc s))
     = logger.defaultLogger (logger.stateOf (logger.InitLogger isSave f level' enc s)).
Proof.
  intros E. rewrite !InitLogger_spec.
  assert (logger.configText isSave (logger.resolveFilename isSave f) level enc
          = logger.configText isSave (logger.resolveFilename isSave f) level' enc) as ->.
  { unfold logger.configText. rewrite E. reflexivity. }
  destruct (zap.Unmarshal _ _) as [cfg|e]; [|split; reflexivity].
  destruct (zap.Build _ _ _) as [lg|e];
    cbn [logger.returned logger.stateOf]; rewrite ?installed_logger;
    split; reflexivity.
Qed.

(** C1, amended. Every ASCII case variation of "debug", "info", "warn",
    "error" resolves to that level.  Upper-casing is Unicode's: a level
    resolves to INFO, WARN or ERROR exactly when its letters spell that
    word in either case, where U+0131 also counts as I; every other string,
    the empty one included, resolves to DEBUG.  For the console
    [InitLogger] never returns an error, and a level that resolves to DEBUG
    gives the same returned error and the same [defaultLogger] as "debug"
    does. *)
Theorem C1_level_resolution (level : string) :
  (forall name, In name levelNames -> caseVariation name level = true ->
     logger.resolveLevel level = gostrings.ToUpper name)
  /\ logger.resolveLevel level =
       (if spells "INFO" level then "INFO"
        else if spells "WARN" level then "WARN"
        else if spells "ERROR" level then "ERROR"
        else "DEBUG")
  /\ (forall f enc s,
        exists l,
          zapcore.unmarshalText (logger.resolveLevel level) = Some l
          /\ logger.InitLogger false f level enc s
             = logger.Return None
                 (logger.addWritten
                    (logger.reported (consoleLogger l (logger.resolveEncoding false enc))
                                     (logger.summary false f level enc))
                    (logger.setLogger
                       (Some (consoleLogger l (logger.resolveEncoding false enc)))
                       (logger.setFlags logger.initFlags s))))
  /\ (logger.resolveLevel level = "DEBUG" ->
      forall isSave f enc s,
        logger.returned (logger.InitLogger isSave f level enc s)
        = logger.returned (logger.InitLogger isSave f "debug" enc s)
        /\ logger.defaultLogger (logger.stateOf (logger.InitLogger isSave f level enc s))
           = logger.defaultLogger
               (logger.stateOf (logger.InitLogger isSave f "debug" enc s))).
Proof.
  split; [|split; [|split]].
  - intros name Hin Hv. apply caseVariation_resolves; assumption.
  - apply resolveLevel_spells.
  - intros f enc s. apply InitLogger_console.
  - intros E isSave f enc s. apply same_text_same_result. rewrite E. reflexivity.
Qed.

Lemma C1_witness :
  logger.resolveLevel "iNfO" = "INFO"
  /\ logger.returned (logger.InitLogger true "app.log" "verbose" [] (logger.initial (fun _ => true)))
     = logger.returned (logger.InitLogger true "app.log" "debug" [] (logger.initial (fun _ => true))).
Proof.
  split.
  - apply (proj1 (C1_level_resolution "iNfO") "info").
    + vm_compute. auto.
    + reflexivity.
  - apply (proj2 (proj2 (proj2 (C1_level_resolution "verbose")))).
    reflexivity.
Defined.

(** * C2: the trace context *)

Lemma traceFields_fold c ks (m0 : gmap string Value) k v :
  foldl (fun (fieldsMap : gmap string Value) key =>
           let v := context.Value c (VString key) in
           if decide (v = VNil) then fieldsMap else <[key := v]> fieldsMap)
        m0 ks !! k = Some v
  <-> (In k ks /\ context.Value c (VString k) = v /\ v <> VNil)
      \/ ((~ In k ks \/ context.Value c (VString k) = VNil) /\ m0 !! k = Some v).
Proof.
  revert m0. induction ks as [|key ks IH]; intros m0.
  - cbn. tauto.
  - cbn [foldl]. rewrite IH. cbn [In]. clear IH.
    destruct (decide (context.Value c (VString key) = VNil)) as [En|Nn];
      destruct (decide (key = k)) as [->|Hne];
      [| |rewrite lookup_insert_eq|rewrite lookup_insert_ne by assumption].
    + split; intros [(? & ? & ?)|(? & ?)]; try tauto.
      destruct H as [?|?]; [|tauto]. congruence.
    + split; intros [(? & ? & ?)|(? & ?)]; tauto.
    + split.
      * intros [(? & ? & ?)|(? & [= <-])]; left; tauto.
      * intros [(_ & <- & ?)|(? & ?)]; [|tauto].
        destruct (In_dec string_dec k ks) as [Hin|Hnin]; [left; tauto|].
        right. tauto.
    + split; intros [(? & ? & ?)|(? & ?)]; tauto.
Qed.

Lemma traceFields_lookup ctx k v :
  logger.traceFields ctx !! k = Some v
  <-> exists c, ctx = Some c /\ In k logger.keys
        /\ context.Value c (VString k) = v /\ v <> VNil.
Proof.
  unfold logger.traceFields. destruct ctx as [c|].
  - rewrite traceFields_fold. rewrite lookup_empty. split.
    + intros [(? & ? & ?)|(_ & [=])]. exists c. tauto.
    + intros (c' & [= <-] & ? & ? & ?). left. tauto.
  - rewrite lookup_empty. split; [discriminate|]. intros (c & [=] & _).
Qed.

Lemma size_positive (m : gmap string Value) :
  (0 <? size m)%nat = false <-> m = ∅.
Proof.
  rewrite <- map_size_empty_iff. destruct (size m); cbn; split; congruence || lia.
Qed.

(** C2. The map [Ctx] extracts holds exactly the pairs of the four keys
    whose value in the context is not nil.  With a nil context, or with
    none of the keys bound, [Ctx] is [getLogger].  With one of them bound
    it is [getLogger] followed by [With] of the one field "context", of
    reflect type, that carries the map: the logger's fields grow by that
    field alone. *)
Theorem C2_trace_context (ctx : option context.Context) (s : logger.State) :
  (forall k v,
     logger.traceFields ctx !! k = Some v
     <-> exists c, ctx = Some c /\ In k logger.keys
           /\ context.Value c (VString k) = v /\ v <> VNil)
  /\ ((forall c k, ctx = Some c -> In k logger.keys ->
         context.Value c (VString k) = VNil) ->
      logger.Ctx ctx s = logger.getLogger s)
  /\ (forall c k, ctx = Some c -> In k logger.keys ->
        context.Value c (VString k) <> VNil ->
        logger.Ctx ctx s
        = logger.bind logger.getLogger
            (fun l => logger.ret
               (zap.With l [logger.Any "context" (IMap (logger.traceFields ctx))])) s
        /\ forall l,
             zap.With l [logger.Any "context" (IMap (logger.traceFields ctx))]
             = {| zap.core := zap.core l; zap.sampler := zap.sampler l;
                  zap.callerSkip := zap.callerSkip l;
                  zap.context := zap.context l ++
                    [ {| zapcore.Key := "context"; zapcore.Kind := zapcore.ReflectType;
                         zapcore.Integer := 0; zapcore.Str := "";
                         zapcore.Interface := IMap (logger.traceFields ctx) |} ] |}).
Proof.
  split; [|split].
  - intros k v. apply traceFields_lookup.
  - intros Hnil. unfold logger.Ctx.
    assert (logger.traceFields ctx = ∅) as ->.
    { apply map_eq. intros k. rewrite lookup_empty.
      destruct (logger.traceFields ctx !! k) as [v|] eqn:E; [|reflexivity].
      apply traceFields_lookup in E as (c & Hc & Hin & Hv & Hn).
      rewrite (Hnil c k Hc Hin) in Hv. congruence. }
    reflexivity.
  - intros c k Hc Hin Hv. split; [|reflexivity].
    unfold logger.Ctx.
    destruct (0 <? size (logger.traceFields ctx))%nat eqn:E; [reflexivity|].
    apply size_positive in E.
    assert (logger.traceFields ctx !! k = Some (context.Value c (VString k))) as Hk.
    { apply traceFields_lookup. exists c. tauto. }
    rewrite E, lookup_empty in Hk. discriminate.
Qed.

Lemma C2_witness :
  logger.Ctx None (logger.initial (fun _ => true))
  = logger.getLogger (logger.initial (fun _ => true))
  /\ logger.Ctx (Some tracedCtx) (logger.initial (fun _ => true))
     = logger.bind logger.getLogger
         (fun l => logger.ret
            (zap.With l [logger.Any "context"
                           (IMap (logger.traceFields (Some tracedCtx)))]))
         (logger.initial (fun _ => true)).
Proof.
  split.
  - apply (proj1 (proj2 (C2_trace_context None (logger.initial (fun _ => true))))).
    intros c k Hc. discriminate.
  - apply (proj2 (proj2 (C2_trace_context (Some tracedCtx) (logger.initial (fun _ => true))))
             tracedCtx "X-B3-TraceId").
    + reflexivity.
    + cbn. auto.
    + vm_compute. discriminate.
Defined.

Example traceFields_only_trace_id :
  logger.traceFields (Some tracedCtx) = {[ "X-B3-TraceId" := VString "t1" ]}.
Proof. vm_compute. reflexivity. Qed.

Lemma Build_file o n l path :
  zap.Build o n (fileConfig l path)
  = if zap.sinkOpens o path then inl (fileLogger l path) else inr (OpenSink path).
Proof.
  unfold zap.Build.
  assert (zap.missingEncodeTime (zap.EncoderConfig (fileConfig l path)) = false)
    as -> by reflexivity.
  assert (zap.registered (zap.Encoding (fileConfig l path)) = true) as -> by reflexivity.
  assert (zap.OutputPaths (fileConfig l path) = [path]) as -> by reflexivity.
  assert (zap.ErrorOutputPaths (fileConfig l path) = [path]) as -> by reflexivity.
  cbn [negb find]. destruct (zap.sinkOpens o path); reflexivity.
Qed.

(** The process after [InitLogger] has installed [lg]. *)
Lemma InitLogger_file f level enc s :
  plain (logger.resolveFilename true f) = true ->
  exists l,
    zapcore.unmarshalText (logger.resolveLevel level) = Some l
    /\ In l [zapcore.DebugLevel; zapcore.InfoLevel; zapcore.WarnLevel; zapcore.ErrorLevel]
    /\ logger.InitLogger true f level enc s =
       if zap.sinkOpens (logger.opens s) (logger.resolveFilename true f) then
         logger.Return None
           (logger.addWritten
              (logger.reported (fileLogger l (logger.resolveFilename true f))
                               (logger.summary true f level enc))
              (logger.setLogger (Some (fileLogger l (logger.resolveFilename true f)))
                 (logger.setFlags logger.initFlags s)))
       else
         logger.Return (Some (OpenSink (logger.resolveFilename true f)))
           (logger.setLogger None (logger.setFlags logger.initFlags s)).
Proof.
  intros Hp. destruct (level_of_resolved level) as (l & Hl & Hin).
  exists l. split; [assumption|]. split; [assumption|].
  rewrite InitLogger_spec, Unmarshal_file by assumption. rewrite Hl.
  change (logger.setEncodeTime (logger.encodeTimeOf true)
            (decoded (Some l) "json" [logger.resolveFilename true f]))
    with (fileConfig l (logger.resolveFilename true f)).
  rewrite Build_file.
  destruct (zap.sinkOpens _ _); [|reflexivity].
  rewrite installed_plain by reflexivity. reflexivity.
Qed.

Lemma configText_file_enc f level enc enc' :
  logger.configText true f level enc = logger.configText true f level enc'.
Proof. unfold logger.configText, logger.resolveEncoding. reflexivity. Qed.

Lemma summary_file_enc f level enc enc' :
  logger.summary true f level enc = logger.summary true f level enc'.
Proof. unfold logger.summary, logger.resolveEncoding. reflexivity. Qed.

Lemma InitLogger_file_enc f level enc enc' s :
  logger.InitLogger true f level enc s = logger.InitLogger true f level enc' s.
Proof.
  rewrite !InitLogger_spec.
  rewrite (configText_file_enc _ level enc enc'), (summary_file_enc f level enc enc').
  reflexivity.
Qed.

(** * C3: the encoding for a file *)

(** C3. What the code does and where it leaves the claim.  With [isSave]
    the variable [encoding] is "json" whatever [encodingType] is, and
    [InitLogger] does the same as without an [encodingType]: that argument
    has no effect.  For a file name of printable ASCII without double quote
    and backslash the text decodes with the encoding "json", and when the
    file can be opened [InitLogger] returns nil and installs the logger
    built with the JSON encoder on that file.  The file name
    [x"],"encoding":"console","k":["y] brings an "encoding" member of its
    own into the text, after the one [InitLogger] wrote; the later member
    wins, and [InitLogger] returns nil with a logger installed that writes
    the file [x] with the console encoder, whatever [encodingType] is. *)
Theorem C3_file_encoding (f level : string) (enc : list string) (s : logger.State) :
  logger.resolveEncoding true enc = "json"
  /\ logger.InitLogger true f level enc s = logger.InitLogger true f level [] s
  /\ (plain (logger.resolveFilename true f) = true ->
      exists l,
        zapcore.unmarshalText (logger.resolveLevel level) = Some l
        /\ zap.Unmarshal (logger.configText true (logger.resolveFilename true f) level enc)
                         zap.zeroConfig
           = inl (decoded (Some l) "json" [logger.resolveFilename true f])
        /\ zap.Encoding (zap.core (fileLogger l (logger.resolveFilename true f))) = "json"
        /\ (zap.sinkOpens (logger.opens s) (logger.resolveFilename true f) = true ->
            logger.InitLogger true f level enc s
            = logger.Return None
                (logger.addWritten
                   (logger.reported (fileLogger l (logger.resolveFilename true f))
                                    (logger.summary true f level enc))
                   (logger.setLogger
                      (Some (fileLogger l (logger.resolveFilename true f)))
                      (logger.setFlags logger.initFlags s)))))
  /\ exists s' lg,
       logger.InitLogger true injecting "debug" enc (logger.initial allOpen)
       = logger.Return None s'
       /\ logger.defaultLogger s' = Some lg
       /\ zap.Encoding (zap.core lg) = "console"
       /\ zap.OutputPaths (zap.core lg) = ["x"]
       /\ zap.ErrorOutputPaths (zap.core lg) = ["x"].
Proof.
  split; [reflexivity|]. split; [apply InitLogger_file_enc|]. split.
  - intros Hp. destruct (InitLogger_file f level enc s Hp) as (l & Hl & _ & Hi).
    exists l. split; [exact Hl|]. split.
    + rewrite Unmarshal_file, Hl by assumption. reflexivity.
    + split; [reflexivity|]. intros Ho. rewrite Hi, Ho. reflexivity.
  - rewrite (InitLogger_file_enc injecting "debug" enc []).
    eexists _, _. split; [vm_compute; reflexivity|].
    split; [reflexivity|]. split; [reflexivity|]. split; reflexivity.
Qed.

Lemma C3_witness :
  exists l,
    zapcore.unmarshalText (logger.resolveLevel "warn") = Some l
    /\ logger.InitLogger true "app.log" "warn" ["console"] (logger.initial allOpen)
       = logger.Return None
           (logger.addWritten
              (logger.reported (fileLogger l "app.log")
                               (logger.summary true "app.log" "warn" ["console"]))
              (logger.setLogger (Some (fileLogger l "app.log"))
                 (logger.setFlags logger.initFlags (logger.initial allOpen)))).
Proof.
  destruct (proj1 (proj2 (proj2 (C3_file_encoding "app.log" "warn" ["console"]
                                   (logger.initial allOpen)))) eq_refl)
    as (l & Hl & _ & _ & Hi).
  exists l. split; [exact Hl|]. apply Hi. reflexivity.
Defined.

(** * C4: the encoding for the console *)

(** C4. Without [isSave] the encoding resolves to "json" when the first
    [encodingType] is "json" and to "console" in every other case; the
    decoded configuration has that encoding and standard output as its one
    output path and its one error-output path, and [InitLogger] installs
    the logger built from it and returns nil. *)
Theorem C4_console_encoding (f level : string) (enc : list string) (s : logger.State) :
  logger.resolveEncoding false enc
    = (if bool_decide (head enc = Some "json"%string) then "json" else "console")
  /\ exists l,
       zapcore.unmarshalText (logger.resolveLevel level) = Some l
       /\ zap.Unmarshal (logger.configText false (logger.resolveFilename false f) level enc)
                     zap.zeroConfig
       = inl (decoded (Some l) (logger.resolveEncoding false enc) ["stdout"])
       /\ logger.InitLogger false f level enc s =
            logger.Return None
              (logger.addWritten
                 (logger.reported (consoleLogger l (logger.resolveEncoding false enc))
                                  (logger.summary false f level enc))
                 (logger.setLogger
                    (Some (consoleLogger l (logger.resolveEncoding false enc)))
                    (logger.setFlags logger.initFlags s))).
Proof.
  split.
  - unfold logger.resolveEncoding. destruct enc as [|e rest]; [reflexivity|].
    cbn [head]. destruct (String.eqb_spec e "json") as [->|Hne].
    + reflexivity.
    + rewrite bool_decide_eq_false_2; [reflexivity|]. intros [= ->]. contradiction.
  - destruct (InitLogger_console f level enc s) as (l & Hl & Hi).
    exists l. split; [exact Hl|]. split; [|exact Hi].
    rewrite Unmarshal_console, Hl. reflexivity.
Qed.


(** * C5: the file name *)

(** C5. What the code does and where it leaves the claim.  With [isSave]
    and an empty file name the name resolves to "out.log", which is not
    empty; the text decodes with it as the one output path and the one
    error-output path; [InitLogger] returns nil and installs the logger
    built on that file when the file can be opened, and returns the error
    of opening "out.log" otherwise.  A file name that is not empty is
    kept as it is and spliced into the text twice; when it is printable
    ASCII without double quote and backslash, it is the path that is
    opened and written.  The path [C:\temp\new.log] is not used
    unchanged: the text decodes to a path with a tab and a line feed in
    it, and that is the path [InitLogger] tries to open. *)
Theorem C5_default_filename (level : string) (enc : list string) (s : logger.State) :
  logger.resolveFilename true "" = "out.log"
  /\ logger.resolveFilename true "" <> ""
  /\ (exists l,
        zapcore.unmarshalText (logger.resolveLevel level) = Some l
        /\ zap.Unmarshal (logger.configText true (logger.resolveFilename true "") level enc)
                         zap.zeroConfig
           = inl (decoded (Some l) "json" ["out.log"])
        /\ zap.OutputPaths (zap.core (fileLogger l "out.log")) = ["out.log"]
        /\ zap.ErrorOutputPaths (zap.core (fileLogger l "out.log")) = ["out.log"]
        /\ logger.InitLogger true "" level enc s =
           if zap.sinkOpens (logger.opens s) "out.log" then
             logger.Return None
               (logger.addWritten
                  (logger.reported (fileLogger l "out.log")
                                   (logger.summary true "" level enc))
                  (logger.setLogger (Some (fileLogger l "out.log"))
                     (logger.setFlags logger.initFlags s)))
           else
             logger.Return (Some (OpenSink "out.log"))
               (logger.setLogger None (logger.setFlags logger.initFlags s)))
  /\ logger.InitLogger true "" level enc s = logger.InitLogger true "out.log" level enc s
  /\ (forall f, f <> "" ->
        logger.resolveFilename true f = f
        /\ logger.configText true (logger.resolveFilename true f) level enc
           = logger.filePre (logger.resolveLevel level)
               +:+ (f +:+ (logger.fileMid +:+ (f +:+ logger.filePost)))
        /\ (plain f = true ->
            exists l,
              zapcore.unmarshalText (logger.resolveLevel level) = Some l
              /\ zap.Unmarshal (logger.configText true (logger.resolveFilename true f)
                                                  level enc)
                               zap.zeroConfig
                 = inl (decoded (Some l) "json" [f])
              /\ logger.InitLogger true f level enc s =
                 if zap.sinkOpens (logger.opens s) f then
                   logger.Return None
                     (logger.addWritten
                        (logger.reported (fileLogger l f)
                                         (logger.summary true f level enc))
                        (logger.setLogger (Some (fileLogger l f))
                           (logger.setFlags logger.initFlags s)))
                 else
                   logger.Return (Some (OpenSink f))
                     (logger.setLogger None (logger.setFlags logger.initFlags s))))
  /\ (windowsPath <> ""
      /\ decodedWindowsPath <> windowsPath
      /\ zap.Unmarshal (logger.configText true (logger.resolveFilename true windowsPath)
                                          "debug" enc)
                       zap.zeroConfig
         = inl (decoded (Some zapcore.DebugLevel) "json" [decodedWindowsPath])
      /\ logger.InitLogger true windowsPath "debug" enc
           (logger.initial (onlyOpen windowsPath))
         = logger.Return (Some (OpenSink decodedWindowsPath))
             (logger.setLogger None
                (logger.setFlags logger.initFlags
                   (logger.initial (onlyOpen windowsPath))))).
Proof.
  split; [reflexivity|]. split; [discriminate|]. split; [|split; [|split]].
  - destruct (InitLogger_file "" level enc s eq_refl) as (l & Hl & _ & Hi).
    exists l. split; [exact Hl|]. split.
    + change (logger.resolveFilename true "") with "out.log".
      rewrite Unmarshal_file, Hl by reflexivity. reflexivity.
    + split; [reflexivity|]. split; [reflexivity|]. exact Hi.
  - assert (logger.resolveFilename true "" = logger.resolveFilename true "out.log")
      as Ef by reflexivity.
    rewrite !InitLogger_spec. unfold logger.summary. rewrite Ef. reflexivity.
  - intros f Hf.
    assert (logger.resolveFilename true f = f) as E.
    { unfold logger.resolveFilename. cbn [andb].
      destruct (String.eqb_spec f "") as [->|_]; [contradiction|reflexivity]. }
    split; [exact E|]. split; [rewrite E; apply fileText_split|].
    intros Hp.
    assert (plain (logger.resolveFilename true f) = true) as Hp' by (rewrite E; exact Hp).
    destruct (InitLogger_file f level enc s Hp') as (l & Hl & _ & Hi).
    exists l. split; [exact Hl|]. split.
    + rewrite Unmarshal_file, Hl by assumption. rewrite E. reflexivity.
    + rewrite E in Hi. exact Hi.
  - split; [discriminate|]. split; [discriminate|]. split.
    + rewrite (configText_file_enc _ "debug" enc []). vm_compute. reflexivity.
    + rewrite (InitLogger_file_enc windowsPath "debug" enc []). vm_compute. reflexivity.
Qed.

Lemma C5_witness :
  exists l,
    zapcore.unmarshalText (logger.resolveLevel "info") = Some l
    /\ logger.InitLogger true "app.log" "info" [] (logger.initial noneOpen)
       = logger.Return (Some (OpenSink "app.log"))
           (logger.setLogger None
              (logger.setFlags logger.initFlags (logger.initial noneOpen))).
Proof.
  destruct (proj1 (proj2 (proj2 (proj2 (proj2
              (C5_default_filename "info" [] (logger.initial noneOpen)))))) "app.log")
    as (_ & _ & H).
  - discriminate.
  - destruct (H eq_refl) as (l & Hl & _ & Hi).
    exists l. split; [exact Hl|]. exact Hi.
Defined.

(** * C6: the lazy accessor *)

Lemma default_init s :
  logger.InitLogger false "" "debug" [] s = logger.Return None (afterDefaultInit s).
Proof.
  unfold afterDefaultInit.
  destruct (InitLogger_console "" "debug" [] s) as (l & Hl & ->).
  vm_compute in Hl. injection Hl as <-. reflexivity.
Qed.

Lemma GetLoggerWith_some init skip s l :
  logger.defaultLogger s = Some l ->
  logger.GetLoggerWith init skip s
  = logger.Return (zap.WithOptions l [zap.AddCallerSkip skip]) s.
Proof.
  intros H. unfold logger.GetLoggerWith, logger.bind. rewrite H. cbn. rewrite H.
  reflexivity.
Qed.

Lemma GetLoggerWith_none init skip s :
  logger.defaultLogger s = None ->
  logger.GetLoggerWith init skip s
  = match init false "" "debug" [] s with
    | logger.Return (Some e) s1 => logger.Exited 1 s1
    | logger.Return None s1 =>
      match logger.defaultLogger s1 with
      | Some l => logger.Return (zap.WithOptions l [zap.AddCallerSkip skip]) s1
      | None => logger.nilDereference s1
      end
    | logger.Panicked msg s1 => logger.Panicked msg s1
    | logger.Exited code s1 => logger.Exited code s1
    end.
Proof.
  intros H. unfold logger.GetLoggerWith, logger.bind. rewrite H.
  destruct (init false "" "debug" [] s) as [[e|] s1|msg s1|code s1]; reflexivity.
Qed.

Lemma GetLogger_lazy skip s :
  logger.defaultLogger s = None ->
  logger.GetLogger skip s
  = logger.Return
      (zap.WithOptions (consoleLogger zapcore.DebugLevel "console")
                       [zap.AddCallerSkip skip])
      (afterDefaultInit s).
Proof.
  intros H. unfold logger.GetLogger.
  rewrite GetLoggerWith_none, default_init by assumption. reflexivity.
Qed.

(** C6. [GetLogger(skip)] with a logger in place returns that logger with
    [skip] more caller frames skipped and leaves the process as it was.
    Without a logger it first runs [InitLogger(false, "", "debug")], which
    installs the console logger at debug level with the console encoding,
    and returns the view of that one.  Were the initialisation to return an
    error, the process would exit with status 1.  The view differs from the
    singleton in [callerSkip] only. *)
Theorem C6_lazy_accessor (skip : Z) (s : logger.State) :
  (forall l, logger.defaultLogger s = Some l ->
     logger.GetLogger skip s
     = logger.Return (zap.WithOptions l [zap.AddCallerSkip skip]) s)
  /\ (logger.defaultLogger s = None ->
      logger.InitLogger false "" "debug" [] s = logger.Return None (afterDefaultInit s)
      /\ logger.defaultLogger (afterDefaultInit s)
         = Some (consoleLogger zapcore.DebugLevel "console")
      /\ logger.GetLogger skip s
         = logger.Return
             (zap.WithOptions (consoleLogger zapcore.DebugLevel "console")
                              [zap.AddCallerSkip skip])
             (afterDefaultInit s))
  /\ (forall init e s1,
        logger.defaultLogger s = None ->
        init false ""%string "debug"%string [] s = logger.Return (Some e) s1 ->
        logger.GetLoggerWith init skip s = logger.Exited 1 s1)
  /\ (forall l,
        zap.WithOptions l [zap.AddCallerSkip skip]
        = {| zap.core := zap.core l;
             zap.sampler := zap.sampler l;
             zap.callerSkip := zap.wrapInt (zap.callerSkip l + skip);
             zap.context := zap.context l |}).
Proof.
  split; [|split; [|split]].
  - intros l H. apply GetLoggerWith_some, H.
  - intros H. split; [apply default_init|]. split; [reflexivity|].
    apply GetLogger_lazy, H.
  - intros init e s1 H Hi. rewrite GetLoggerWith_none, Hi by assumption. reflexivity.
  - reflexivity.
Qed.

Lemma C6_witness :
  logger.GetLogger 2
    (logger.setLogger (Some (consoleLogger zapcore.WarnLevel "json")) (logger.initial allOpen))
  = logger.Return
      (zap.WithOptions (consoleLogger zapcore.WarnLevel "json") [zap.AddCallerSkip 2])
      (logger.setLogger (Some (consoleLogger zapcore.WarnLevel "json")) (logger.initial allOpen))
  /\ logger.GetLogger 2 (logger.initial allOpen)
     = logger.Return
         (zap.WithOptions (consoleLogger zapcore.DebugLevel "console")
                          [zap.AddCallerSkip 2])
         (afterDefaultInit (logger.initial allOpen))
  /\ logger.GetLoggerWith failingInit 2 (logger.initial allOpen)
     = logger.Exited 1 (logger.initial allOpen).
Proof.
  split; [|split].
  - apply (proj1 (C6_lazy_accessor 2 _)). reflexivity.
  - apply (proj1 (proj2 (C6_lazy_accessor 2 (logger.initial allOpen))) eq_refl).
  - apply (proj1 (proj2 (proj2 (C6_lazy_accessor 2 (logger.initial allOpen))))
             failingInit SyntaxError); reflexivity.
Defined.

(** * C7: the formatted calls *)

(** C7, the claim at Panic: the facade has no formatted call for it. *)
Lemma C7_counterexample : logger.formatted logger.CPanic = None.
Proof. reflexivity. Qed.

(** C7, amended. For each of Debug, Info, Warn, Error and Fatal the facade
    has a formatted call, and that call does what the plain call of the same
    level does with the message [fmt.Sprintf(format, a...)] and no fields. *)
Theorem C7_formatted_calls (c : logger.LevelCall) :
  c <> logger.CPanic ->
  exists f,
    logger.formatted c = Some f
    /\ forall format a s, f format a s = logger.leveled c (fmt.Sprintf format a) [] s.
Proof.
  intros Hc. destruct c; try contradiction; eexists; (split; [reflexivity|]);
    intros format a s; reflexivity.
Qed.

Lemma C7_witness :
  exists f,
    logger.formatted logger.CWarn = Some f
    /\ forall format a s, f format a s = logger.leveled logger.CWarn (fmt.Sprintf format a) [] s.
Proof. apply (C7_formatted_calls logger.CWarn). discriminate. Defined.

(** * C8: what a successful initialisation leaves behind *)

(** C8, the claim at level "error": [InitLogger] succeeds and nothing is
    written. *)
Lemma C8_counterexample :
  exists s',
    logger.InitLogger false "" "error" [] (logger.initial allOpen) = logger.Return None s'
    /\ logger.written s' = [].
Proof. eexists. split; vm_compute; reflexivity. Qed.

Lemma Enabled_info l :
  zapcore.Enabled l zapcore.InfoLevel
  = bool_decide (l = zapcore.DebugLevel \/ l = zapcore.InfoLevel).
Proof.
  destruct l; vm_compute; reflexivity.
Qed.

(** One call at Info level through the logger [Build] gave is what takes
    the process from the new [defaultLogger] to [installed]. *)
Lemma logAt_installed lg msg s :
  logger.logAt (zap.WithOptions lg [zap.AddCallerSkip 1]) zapcore.InfoLevel msg []
    (logger.setLogger (Some lg) (logger.setCounters lg ∅ s))
  = logger.Return tt (logger.installed lg msg s).
Proof.
  unfold logger.logAt. rewrite countersOf_new.
  assert (logger.now (logger.setLogger (Some lg) (logger.setCounters lg ∅ s))
          = logger.now s) as ->.
  { unfold logger.setCounters. destruct (zap.sampler lg); reflexivity. }
  pose proof (check_action (logger.now s) ∅ (zap.WithOptions lg [zap.AddCallerSkip 1])
                zapcore.InfoLevel msg []) as Ha.
  pose proof (check_first (logger.now s) (zap.WithOptions lg [zap.AddCallerSkip 1])
                zapcore.InfoLevel msg []) as Hf.
  unfold logger.installed, logger.reported, logger.counted.
  rewrite <- Hf.
  destruct (zap.check _ _ _ _ _ _) as [[ent action] cs].
  cbn [fst snd] in *. subst action. reflexivity.
Qed.

(** A text without members of the file name's own decodes without
    sampling and without initial fields. *)
Lemma Unmarshal_clean isSave f level enc cfg :
  isSave = false \/ plain (logger.resolveFilename isSave f) = true ->
  zap.Unmarshal (logger.configText isSave (logger.resolveFilename isSave f) level enc)
                zap.zeroConfig = inl cfg ->
  exists l encoding paths,
    cfg = decoded (Some l) encoding paths
    /\ In l [zapcore.DebugLevel; zapcore.InfoLevel; zapcore.WarnLevel; zapcore.ErrorLevel].
Proof.
  intros Hc Hu. destruct (level_of_resolved level) as (l & Hl & Hin).
  destruct isSave.
  - destruct Hc as [Hc|Hp]; [discriminate|].
    rewrite Unmarshal_file, Hl in Hu by assumption. injection Hu as <-. eauto.
  - cbn [logger.resolveFilename andb] in Hu.
    rewrite Unmarshal_console, Hl in Hu. injection Hu as <-. eauto.
Qed.

(** C8, amended. When [InitLogger] returns nil, [defaultLogger] is the logger
    it has just built, whatever was there before, and it has made one call
    at Info level through that logger, with the summary as message.  For
    the console, and for a file name of printable ASCII without double
    quote and backslash, the line is written when the new logger's level is
    Debug or Info, and nothing is written otherwise.  In general the line
    is written when the level is Debug or Info and the sampler of the new
    logger, if it has one, lets its first entry through, and the line
    carries the initial fields of the configuration. *)
Theorem C8_reinitialisation (isSave : bool) (f level : string) (enc : list string)
  (s s' : logger.State) :
  logger.InitLogger isSave f level enc s = logger.Return None s' ->
  exists cfg0 cfg l lg,
    zap.Unmarshal (logger.configText isSave (logger.resolveFilename isSave f) level enc)
                  zap.zeroConfig = inl cfg0
    /\ cfg = logger.setEncodeTime (logger.encodeTimeOf isSave) cfg0
    /\ zap.Level cfg = Some l
    /\ zap.Build (logger.opens s) (logger.freshSampler s) cfg = inl lg
    /\ zap.core lg = cfg /\ zap.callerSkip lg = 0
    /\ logger.defaultLogger s' = Some lg
    /\ logger.logAt (zap.WithOptions lg [zap.AddCallerSkip 1]) zapcore.InfoLevel
         (logger.summary isSave f level enc) []
         (logger.setLogger (Some lg)
            (logger.setCounters lg ∅ (logger.setFlags logger.initFlags s)))
       = logger.Return tt s'
    /\ logger.written s'
       = logger.written s ++
           (if bool_decide (l = zapcore.DebugLevel \/ l = zapcore.InfoLevel)
               && keepsFirst cfg then
              [ {| zap.entLevel := zapcore.InfoLevel;
                   zap.entMessage := logger.summary isSave f level enc;
                   zap.entFields := zap.initialFields cfg; zap.entCallerSkip := 1;
                   zap.entCore := cfg |} ]
            else [])
    /\ (isSave = false \/ plain (logger.resolveFilename isSave f) = true ->
        In l [zapcore.DebugLevel; zapcore.InfoLevel; zapcore.WarnLevel;
              zapcore.ErrorLevel]
        /\ zap.sampler lg = None /\ zap.context lg = []
        /\ logger.written s'
           = logger.written s ++
               (if bool_decide (l = zapcore.DebugLevel \/ l = zapcore.InfoLevel) then
                  [ {| zap.entLevel := zapcore.InfoLevel;
                       zap.entMessage := logger.summary isSave f level enc;
                       zap.entFields := []; zap.entCallerSkip := 1;
                       zap.entCore := cfg |} ]
                else [])).
Proof.
  rewrite InitLogger_spec.
  destruct (zap.Unmarshal _ _) as [cfg0|e] eqn:Hu; [|discriminate].
  destruct (zap.Build _ _ _) as [lg|e] eqn:Hb; [|discriminate].
  intros [= <-].
  pose proof Hb as Hb'. apply Build_inl in Hb' as [Hlg (l & Hl)].
  exists cfg0, (logger.setEncodeTime (logger.encodeTimeOf isSave) cfg0), l, lg.
  split; [reflexivity|]. split; [reflexivity|].
  split; [exact Hl|]. split; [exact Hb|].
  split; [rewrite Hlg; reflexivity|]. split; [rewrite Hlg; reflexivity|].
  split; [apply installed_logger|]. split; [apply logAt_installed|].
  assert (logger.written
            (logger.installed lg (logger.summary isSave f level enc)
               (logger.setFlags logger.initFlags s))
          = logger.written s ++
              (if bool_decide (l = zapcore.DebugLevel \/ l = zapcore.InfoLevel)
                  && keepsFirst (logger.setEncodeTime (logger.encodeTimeOf isSave) cfg0)
               then
                 [ {| zap.entLevel := zapcore.InfoLevel;
                      zap.entMessage := logger.summary isSave f level enc;
                      zap.entFields :=
                        zap.initialFields
                          (logger.setEncodeTime (logger.encodeTimeOf isSave) cfg0);
                      zap.entCallerSkip := 1;
                      zap.entCore := logger.setEncodeTime (logger.encodeTimeOf isSave) cfg0 |} ]
               else [])) as Hw.
  { rewrite installed_written. rewrite Hlg at 1.
    rewrite (reported_built _ _ l) by exact Hl. rewrite Enabled_info. reflexivity. }
  split; [exact Hw|].
  intros Hc. destruct (Unmarshal_clean isSave f level enc cfg0 Hc Hu)
    as (l0 & encoding & paths & -> & Hin).
  assert (l0 = l) as -> by (cbn in Hl; congruence).
  split; [exact Hin|]. split; [rewrite Hlg; reflexivity|].
  split; [rewrite Hlg; reflexivity|].
  rewrite Hw.
  assert (keepsFirst (logger.setEncodeTime (logger.encodeTimeOf isSave)
                        (decoded (Some l) encoding paths)) = true) as -> by reflexivity.
  rewrite andb_true_r. reflexivity.
Qed.

Lemma C8_witness :
  exists cfg l lg,
    zap.Level cfg = Some l
    /\ zap.core lg = cfg
    /\ logger.defaultLogger
         (logger.stateOf (logger.InitLogger true "" "info" [] (logger.initial allOpen)))
       = Some lg.
Proof.
  destruct (C8_reinitialisation true "" "info" [] (logger.initial allOpen)
              (logger.stateOf (logger.InitLogger true "" "info" [] (logger.initial allOpen))))
    as (cfg0 & cfg & l & lg & _ & _ & Hl & _ & Hc & _ & Hd & _).
  - vm_compute. reflexivity.
  - exists cfg, l, lg. split; [exact Hl|]. split; [exact Hc|exact Hd].
Defined.

(** * C9: the two error paths *)

Lemma getLogger_lazy s :
  logger.defaultLogger s = None ->
  logger.getLogger s
  = logger.Return
      (zap.WithOptions (consoleLogger zapcore.DebugLevel "console")
                       [zap.AddCallerSkip 1])
      (afterDefaultInit s).
Proof. apply (GetLogger_lazy 1). Qed.

(** C9. When [Config.Build] fails, [InitLogger] returns its error and
    [defaultLogger] is nil, also when a logger was active before; the next
    [getLogger], and so the next logging call ([Info] here), runs the
    default initialisation and goes through the logger it installs.  When
    [json.Unmarshal] fails, [InitLogger] returns its error and
    [defaultLogger] is what it was. *)
Theorem C9_build_failure (isSave : bool) (f level : string) (enc : list string)
  (s : logger.State) :
  (forall cfg e,
     zap.Unmarshal (logger.configText isSave (logger.resolveFilename isSave f) level enc)
                   zap.zeroConfig = inl cfg ->
     zap.Build (logger.opens s) (logger.freshSampler s)
               (logger.setEncodeTime (logger.encodeTimeOf isSave) cfg)
       = inr e ->
     logger.InitLogger isSave f level enc s
       = logger.Return (Some e) (logger.setLogger None (logger.setFlags logger.initFlags s))
     /\ logger.defaultLogger (logger.setLogger None (logger.setFlags logger.initFlags s))
        = None
     /\ logger.getLogger (logger.setLogger None (logger.setFlags logger.initFlags s))
        = logger.Return
            (zap.WithOptions (consoleLogger zapcore.DebugLevel "console")
                             [zap.AddCallerSkip 1])
            (afterDefaultInit
               (logger.setLogger None (logger.setFlags logger.initFlags s)))
     /\ logger.defaultLogger
          (afterDefaultInit (logger.setLogger None (logger.setFlags logger.initFlags s)))
        = Some (consoleLogger zapcore.DebugLevel "console")
     /\ forall msg fields,
          logger.Info msg fields (logger.setLogger None (logger.setFlags logger.initFlags s))
          = logger.logAt
              (zap.WithOptions (consoleLogger zapcore.DebugLevel "console")
                               [zap.AddCallerSkip 1])
              zapcore.InfoLevel msg fields
              (afterDefaultInit
                 (logger.setLogger None (logger.setFlags logger.initFlags s))))
  /\ (forall e,
        zap.Unmarshal (logger.configText isSave (logger.resolveFilename isSave f) level enc)
                      zap.zeroConfig = inr e ->
        logger.InitLogger isSave f level enc s
          = logger.Return (Some e) (logger.setFlags logger.initFlags s)
        /\ logger.defaultLogger (logger.setFlags logger.initFlags s)
           = logger.defaultLogger s).
Proof.
  split.
  - intros cfg e Hu Hb. rewrite InitLogger_spec, Hu, Hb.
    split; [reflexivity|]. split; [reflexivity|].
    split; [apply getLogger_lazy; reflexivity|]. split; [reflexivity|].
    intros msg fields. unfold logger.Info, logger.bind.
    rewrite getLogger_lazy by reflexivity. reflexivity.
  - intros e Hu. rewrite InitLogger_spec, Hu. split; reflexivity.
Qed.

Lemma C9_witness :
  (logger.InitLogger true "x" "debug" [] lockedDown
   = logger.Return (Some (OpenSink "x"))
       (logger.setLogger None (logger.setFlags logger.initFlags lockedDown)))
  /\ (logger.InitLogger true dq "debug" [] lockedDown
      = logger.Return (Some SyntaxError) (logger.setFlags logger.initFlags lockedDown)
      /\ logger.defaultLogger (logger.setFlags logger.initFlags lockedDown)
         = logger.defaultLogger lockedDown).
Proof.
  split.
  - apply (proj1 (proj1 (C9_build_failure true "x" "debug" [] lockedDown)
             (decoded (Some zapcore.DebugLevel) "json" ["x"]) (OpenSink "x")
             ltac:(vm_compute; reflexivity) ltac:(vm_compute; reflexivity))).
  - apply (proj2 (C9_build_failure true dq "debug" [] lockedDown)).
    vm_compute. reflexivity.
Defined.

(** * C10: the file name inside the configuration text *)

(** C10, the claim at the file name [a","b]: it holds a double quote, the
    text is well formed, and [InitLogger] succeeds with two output paths. *)
Lemma C10_counterexample :
  contains json.dquote twoPaths = true
  /\ zap.Unmarshal (logger.configText true (logger.resolveFilename true twoPaths) "debug" [])
                   zap.zeroConfig
     = inl (decoded (Some zapcore.DebugLevel) "json" ["a"; "b"])
  /\ exists s',
       logger.InitLogger true twoPaths "debug" [] (logger.initial allOpen)
       = logger.Return None s'
       /\ logger.defaultLogger s' <> logger.defaultLogger (logger.initial allOpen).
Proof.
  split; [reflexivity|]. split; [vm_compute; reflexivity|].
  eexists. split; [vm_compute; reflexivity|]. vm_compute. discriminate.
Qed.

Lemma Unmarshal_quote level enc :
  zap.Unmarshal (logger.configText true (logger.resolveFilename true dq) level enc)
                zap.zeroConfig = inr SyntaxError.
Proof.
  unfold logger.configText.
  destruct (resolveLevel_cases level) as [-> | [-> | [-> | ->]]]; vm_compute; reflexivity.
Qed.

Lemma Unmarshal_backslash level enc :
  zap.Unmarshal (logger.configText true (logger.resolveFilename true bs) level enc)
                zap.zeroConfig = inr SyntaxError.
Proof.
  unfold logger.configText.
  destruct (resolveLevel_cases level) as [-> | [-> | [-> | ->]]]; vm_compute; reflexivity.
Qed.

(** C10, amended. There are file names for which [InitLogger(true, ...)]
    returns a syntax error of [json.Unmarshal] and leaves [defaultLogger] as
    it was: a lone double quote, a lone backslash.  Whenever [json.Unmarshal]
    fails the error is returned with [defaultLogger] unchanged.  A file name
    of printable ASCII without double quote and backslash always gives a
    text that decodes, with that name as the one output path and the one
    error-output path. *)
Theorem C10_filename_in_text (level : string) (enc : list string) (s : logger.State) :
  logger.InitLogger true dq level enc s
    = logger.Return (Some SyntaxError) (logger.setFlags logger.initFlags s)
  /\ logger.InitLogger true bs level enc s
     = logger.Return (Some SyntaxError) (logger.setFlags logger.initFlags s)
  /\ logger.defaultLogger (logger.setFlags logger.initFlags s) = logger.defaultLogger s
  /\ (forall f e,
        zap.Unmarshal (logger.configText true (logger.resolveFilename true f) level enc)
                      zap.zeroConfig = inr e ->
        logger.InitLogger true f level enc s
        = logger.Return (Some e) (logger.setFlags logger.initFlags s))
  /\ (forall f, plain f = true ->
        zap.Unmarshal (logger.configText true f level enc) zap.zeroConfig
        = inl (decoded (zapcore.unmarshalText (logger.resolveLevel level)) "json" [f])).
Proof.
  split; [|split; [|split; [|split]]].
  - rewrite InitLogger_spec, Unmarshal_quote. reflexivity.
  - rewrite InitLogger_spec, Unmarshal_backslash. reflexivity.
  - reflexivity.
  - intros f e Hu. rewrite InitLogger_spec, Hu. reflexivity.
  - intros f Hp. apply Unmarshal_file, Hp.
Qed.

Lemma C10_witness :
  logger.InitLogger true (dq +:+ "x") "info" [] (logger.initial allOpen)
  = logger.Return (Some SyntaxError)
      (logger.setFlags logger.initFlags (logger.initial allOpen))
  /\ zap.Unmarshal (logger.configText true "logs/app.log" "info" []) zap.zeroConfig
     = inl (decoded (zapcore.unmarshalText (logger.resolveLevel "info"))
                    "json" ["logs/app.log"]).
Proof.
  split.
  - apply (proj1 (proj2 (proj2 (proj2
             (C10_filename_in_text "info" [] (logger.initial allOpen)))))).
    vm_compute. reflexivity.
  - apply (proj2 (proj2 (proj2 (proj2
             (C10_filename_in_text "info" [] (logger.initial allOpen)))))).
    reflexivity.
Defined.

Example escaped_backslash_parses :
  zap.Unmarshal (logger.configText true ("a" +:+ bs +:+ bs +:+ "b") "debug" [])
                zap.zeroConfig
  = inl (decoded (Some zapcore.DebugLevel) "json" ["a" +:+ bs +:+ "b"]).
Proof. vm_compute. reflexivity. Qed.

(** * Checks on concrete inputs *)

Example ToUpper_ascii : gostrings.ToUpper "wArn" = "WARN".
Proof. reflexivity. Qed.

Example ToUpper_dotless :
  gostrings.ToUpper (String (chr 196) (String (chr 177) "nfo")) = "INFO".
Proof. vm_compute. reflexivity. Qed.

Example Sprintf_ok :
  fmt.Sprintf "isSave=%t, level=%s" [VBool false; VString "debug"]
  = "isSave=false, level=debug".
Proof. reflexivity. Qed.

Example Sprintf_bad :
  fmt.Sprintf "%d%s%%" [VString "x"] = "%!d(string=x)%!s(MISSING)%".
Proof. reflexivity. Qed.

Example Sprintf_extra :
  fmt.Sprintf "n=%d" [VInt (-12); VNil; VBool true] = "n=-12%!(EXTRA <nil>, bool=true)".
Proof. vm_compute. reflexivity. Qed.

Example parse_nested :
  json.parse ("{" +:+ dq +:+ "a" +:+ dq +:+ " : [1, -2.5e3, true, null, {}], "
              +:+ dq +:+ "b\né" +:+ dq +:+ ":[]}  ")
  = Some (json.JObject
      [("a", json.JArray [json.JNumber "1"; json.JNumber "-2.5e3"; json.JBool true;
                          json.JNull; json.JObject []]);
       (String "b" (String "010" (String (chr 195) (String (chr 169) EmptyString))),
        json.JArray [])]).
Proof. vm_compute. reflexivity. Qed.

Example parse_trailing_comma : json.parse "[1,]" = None.
Proof. reflexivity. Qed.

Example parse_leading_zero : json.parse "[01]" = None.
Proof. reflexivity. Qed.

Example parse_two_values : json.parse "1 2" = None.
Proof. reflexivity. Qed.

Example parse_open_string : json.parse (dq +:+ "abc") = None.
Proof. reflexivity. Qed.

(** With a "sampling" member from the file name, initial 0 and thereafter
    100, the sampler of the new logger drops the first entry it counts:
    [InitLogger] returns nil and the summary is not written. *)
Example sampled_summary_dropped :
  exists s' lg,
    logger.InitLogger true sampling "debug" [] (logger.initial allOpen)
    = logger.Return None s'
    /\ logger.defaultLogger s' = Some lg
    /\ zap.sampler lg = Some {| zap.counts := 0; zap.first := 0; zap.thereafter := 100 |}
    /\ logger.written s' = [].
Proof.
  eexists _, _. split; [vm_compute; reflexivity|].
  split; [reflexivity|]. split; reflexivity.
Qed.

(** The second entry with the same message goes the same way, and the
    hundredth after the first is written. *)
Example sampled_hundredth_written :
  let s1 := logger.stateOf
              (logger.InitLogger true sampling "debug" [] (logger.initial allOpen)) in
  let again (s : logger.State) := logger.stateOf (logger.Info "tick" [] s) in
  List.length (logger.written (Nat.iter 99 again s1)) = 0%nat
  /\ List.length (logger.written (Nat.iter 100 again s1)) = 1%nat.
Proof. vm_compute. split; reflexivity. Qed.

(** An array element [null] leaves what the slice holds at its place. *)
Example null_keeps_the_element :
  zap.Unmarshal
    ("{" +:+ dq +:+ "level" +:+ dq +:+ ":" +:+ dq +:+ "info" +:+ dq +:+ ","
     +:+ dq +:+ "outputPaths" +:+ dq +:+ ":[" +:+ dq +:+ "a" +:+ dq +:+ "," +:+ dq +:+ "b"
     +:+ dq +:+ "]," +:+ dq +:+ "outputPaths" +:+ dq +:+ ":[null," +:+ dq +:+ "c" +:+ dq
     +:+ "]}") zap.zeroConfig
  = inl (zap.setOutputPaths ["a"; "c"] (decoded (Some zapcore.InfoLevel) "" [])).
Proof. vm_compute. reflexivity. Qed.

(** Members of [zap.Config] beyond the four of the facade's text are
    decoded, and a value of the wrong kind is an error. *)
Example decodes_every_member :
  zap.Unmarshal
    ("{" +:+ dq +:+ "DEVELOPMENT" +:+ dq +:+ ":true,"
     +:+ dq +:+ "sampling" +:+ dq +:+ ":{" +:+ dq +:+ "initial" +:+ dq +:+ ":3},"
     +:+ dq +:+ "initialFields" +:+ dq +:+ ":{" +:+ dq +:+ "n" +:+ dq +:+ ":1.5},"
     +:+ dq +:+ "encoderConfig" +:+ dq +:+ ":{" +:+ dq +:+ "timeEncoder" +:+ dq +:+ ":"
     +:+ dq +:+ "iso8601" +:+ dq +:+ "}}") zap.zeroConfig
  = inl (zap.setDevelopment true
          (zap.setSampling (Some {| zap.Initial := 3; zap.Thereafter := 0 |})
            (zap.setInitialFields (Some {[ "n" := IFloat64 4609434218613702656 ]})
              (zap.setEncoderConfig
                 (zapcore.setEncodeTime (Some zapcore.ISO8601TimeEncoder)
                    zapcore.zeroEncoderConfig)
                 zap.zeroConfig))))
  /\ zap.Unmarshal ("{" +:+ dq +:+ "sampling" +:+ dq +:+ ":{" +:+ dq +:+ "initial"
                     +:+ dq +:+ ":1.5}}") zap.zeroConfig
     = inr (UnmarshalTypeError "sampling.initial")
  /\ zap.Unmarshal ("{" +:+ dq +:+ "development" +:+ dq +:+ ":1}") zap.zeroConfig
     = inr (UnmarshalTypeError "development").
Proof. vm_compute. repeat split; reflexivity. Qed.

(** A member the file name brings in overrides the one [InitLogger] wrote. *)
Example injected_encoding :
  zap.Unmarshal (logger.configText true injecting "debug" []) zap.zeroConfig
  = inl (decoded (Some zapcore.DebugLevel) "console" ["x"]).
Proof. vm_compute. reflexivity. Qed.

Example summary_console :
  logger.summary false "" "bogus" []
  = "initialize logger finish, base config is isSave=false, level=bogus, encoding=console".
Proof. vm_compute. reflexivity. Qed.

Example Info_after_default_init :
  logger.written
    (logger.stateOf (logger.Info "this is info" [logger.Int "int" 1000]
                       (logger.initial allOpen)))
  = logger.written (afterDefaultInit (logger.initial allOpen)) ++
    [ {| zap.entLevel := zapcore.InfoLevel; zap.entMessage := "this is info";
         zap.entFields := [zap.Int "int" 1000]; zap.entCallerSkip := 1;
         zap.entCore := zap.core (consoleLogger zapcore.DebugLevel "console") |} ].
Proof. vm_compute. reflexivity. Qed.

Example Fatal_writes_then_exits :
  exists s',
    logger.Fatal "bye" [] (logger.initial allOpen) = logger.Exited 1 s'
    /\ List.length (logger.written s') = 2%nat.
Proof. eexists. split; vm_compute; reflexivity. Qed.
